(** * mpu6050: the I2C driver of the MPU-6050 accelerometer / gyroscope

    A shallow embedding of [src/mpu6050/mpu6050.py].  Python objects are
    values of [value]; an expression that may raise evaluates to an
    [outcome]; a method of the class [mpu6050] is a computation of the
    monad [M], which threads the object's attributes and the history of the
    bus and stops at the first exception.  Floats are the kernel's binary64
    numbers, which is what a Python [float] is. *)

From Stdlib Require Import ZArith List Floats.
From stdpp Require Import base option strings gmap list.

Set Warnings "-inexact-float".

(** ** Exceptions and outcomes *)

Inductive exn : Set :=
| OSError
| ValueError
| TypeError
| ZeroDivisionError
| OverflowError
| AttributeError
| IndexError.

Inductive outcome (A : Type) : Type :=
| Return (a : A)
| Raise (e : exn).
Arguments Return {A} a.
Arguments Raise {A} e.

Definition obind {A B} (o : outcome A) (k : A -> outcome B) : outcome B :=
  match o with
  | Return a => k a
  | Raise e => Raise e
  end.

Declare Scope outcome_scope.
Delimit Scope outcome_scope with outcome.
Notation "x <~ c1 ; c2" := (obind c1 (fun x => c2))
  (at level 100, c1 at next level, right associativity) : outcome_scope.

(** [try: body / except (ValueError, TypeError): handler] and the like:
    [handles] says which exceptions the clause names. *)
Definition try_except {A} (body : outcome A) (handles : exn -> bool)
    (handler : outcome A) : outcome A :=
  match body with
  | Return a => Return a
  | Raise e => if handles e then handler else Raise e
  end.

(** ** Python values *)

Inductive value : Set :=
| VNone
| VInt (n : Z)
| VFloat (f : float).

(** The dictionary [{'x': .., 'y': .., 'z': ..}] the vector reads return and
    [calculate_angle] takes. *)
Record vector : Set := Vector { x : value; y : value; z : value }.

Module Py.

(** [float(n)] for an [int]: rounded to the nearest binary64, and
    [OverflowError] ("int too large to convert to float") beyond it. *)
Definition round_int (n : Z) : float :=
  SF2Prim (binary_normalize prec emax n 0 false).

Definition float_of_int (n : Z) : outcome float :=
  let f := round_int n in
  if is_infinity f then Raise OverflowError else Return f.

(** The conversion a function of [math] applies to its argument. *)
Definition as_float (v : value) : outcome float :=
  match v with
  | VNone => Raise TypeError
  | VInt n => float_of_int n
  | VFloat f => Return f
  end.

(** The operands of a binary arithmetic operator after coercion: two
    ints stay ints, an int beside a float becomes a float, [None] is a
    [TypeError]. *)
Inductive operands : Set :=
| Ints (m n : Z)
| Flts (a b : float).

Definition coerce (v w : value) : outcome operands :=
  match v, w with
  | VNone, _ | _, VNone => Raise TypeError
  | VInt m, VInt n => Return (Ints m n)
  | VInt m, VFloat b => (a <~ float_of_int m; Return (Flts a b))%outcome
  | VFloat a, VInt n => (b <~ float_of_int n; Return (Flts a b))%outcome
  | VFloat a, VFloat b => Return (Flts a b)
  end.

(** [v + w] *)
Definition add (v w : value) : outcome value :=
  (ops <~ coerce v w;
   match ops with
   | Ints m n => Return (VInt (m + n))
   | Flts a b => Return (VFloat (a + b))
   end)%outcome.

(** [v * w] *)
Definition mul (v w : value) : outcome value :=
  (ops <~ coerce v w;
   match ops with
   | Ints m n => Return (VInt (m * n))
   | Flts a b => Return (VFloat (a * b))
   end)%outcome.

(** [a / b] on floats: only a zero divisor raises. *)
Definition float_div (a b : float) : outcome value :=
  if (b =? 0)%float then Raise ZeroDivisionError else Return (VFloat (a / b)).

(** [v / w].  Every division of the driver has a float (or [None]) on the
    right; for two ints the quotient is taken after converting both, which
    is CPython's result as long as both are below 2^53 in magnitude. *)
Definition truediv (v w : value) : outcome value :=
  (ops <~ coerce v w;
   match ops with
   | Ints m n =>
       if (n =? 0)%Z then Raise ZeroDivisionError
       else a <~ float_of_int m; b <~ float_of_int n; float_div a b
   | Flts a b => float_div a b
   end)%outcome.

(** [math.pi] *)
Definition pi : float := 3.141592653589793%float.

(** *** The functions of [math]

    [math.sqrt] and [math.acos] call the C function and then inspect the
    result: a NaN from an argument that is not one, or an infinity from a
    finite argument, is a [ValueError] ("math domain error").  The square
    root is IEEE's; [acos] and [pow] are the C library's and are taken as
    they come. *)
Section Libm.

Variable libm_acos : float -> float.
Variable libm_pow : float -> float -> float.

Definition math_1 (func : float -> float) (v : value) : outcome value :=
  (a <~ as_float v;
   let r := func a in
   if is_nan r && negb (is_nan a) then Raise ValueError
   else if is_infinity r && is_finite a then Raise ValueError
   else Return (VFloat r))%outcome.

Definition math_sqrt : value -> outcome value := math_1 PrimFloat.sqrt.
Definition math_acos : value -> outcome value := math_1 libm_acos.

(** [iv ** 2.0] on floats, with the cases CPython settles before it
    calls [pow]: NaN, infinity, zero, a negative base (squared as its
    opposite, the exponent being even) and one; an infinite result of
    [pow] is an [OverflowError]. *)
Definition float_pow2 (iv : float) : outcome value :=
  if is_nan iv then Return (VFloat iv)
  else if is_infinity iv then Return (VFloat (abs iv))
  else if (iv =? 0)%float then Return (VFloat 0%float)
  else
    let iv := if (iv <? 0)%float then (- iv)%float else iv in
    if (iv =? 1)%float then Return (VFloat 1%float)
    else
      let ix := libm_pow iv 2%float in
      if is_infinity ix then Raise OverflowError else Return (VFloat ix).

(** [v ** 2] *)
Definition pow2 (v : value) : outcome value :=
  match v with
  | VNone => Raise TypeError
  | VInt n => Return (VInt (n ^ 2))
  | VFloat f => float_pow2 f
  end.

End Libm.

End Py.

(** ** The I2C bus

    [smbus2.SMBus] is outside the driver: it is modelled by the history of
    the transactions issued so far (oldest first) and by a [device] that
    answers each transaction, or fails it with [OSError], as a function of
    that history.  Any behaviour of the hardware during one run is such a
    function. *)

Inductive txn : Set :=
| ReadByte (addr register : Z)
| WriteByte (addr register val : Z).

Record device : Type := Device {
  answer_read : list txn -> Z -> Z -> option Z;
  answer_write : list txn -> Z -> Z -> Z -> bool
}.

(** ** The class [mpu6050] *)

(** An instance: [self.address], the history of [self.bus], and the two
    attributes the setters assign ([None] while not yet assigned). *)
Record mpu6050 : Type := Mpu6050 {
  address : Z;
  bus : list txn;
  accel_range : option string;
  gyro_range : option string
}.

Definition M (A : Type) : Type := mpu6050 -> outcome A * mpu6050.

Definition ret {A} (a : A) : M A := fun self => (Return a, self).

Definition raise {A} (e : exn) : M A := fun self => (Raise e, self).

Definition bind {A B} (m : M A) (k : A -> M B) : M B := fun self =>
  match m self with
  | (Return a, self') => k a self'
  | (Raise e, self') => (Raise e, self')
  end.

(** An expression without effect on the instance. *)
Definition lift {A} (o : outcome A) : M A := fun self => (o, self).

(** The body of a [try]: its outcome is handed to the [except] clauses. *)
Definition attempt {A} (m : M A) : M (outcome A) := fun self =>
  let (o, self') := m self in (Return o, self').

Declare Scope method_scope.
Delimit Scope method_scope with method.
Notation "x <- c1 ;; c2" := (bind c1 (fun x => c2))
  (at level 100, c1 at next level, right associativity) : method_scope.
Notation "c1 ;; c2" := (bind c1 (fun _ => c2))
  (at level 100, right associativity) : method_scope.

(** A list comprehension [[f i for i in l]]. *)
Fixpoint comprehension {A B} (f : A -> M B) (l : list A) : M (list B) :=
  match l with
  | [] => ret []
  | i :: l' => (b <- f i ;; bs <- comprehension f l' ;; ret (b :: bs))%method
  end.

(** [d.get(k)] *)
Definition dict_get {V} (inj : V -> value) (d : gmap string V) (k : string) : value :=
  from_option inj VNone (d !! k).

Module Const.

Definition GRAVITIY_MS2 : float := 9.80665%float.

Definition ACCEL_SCALE_MODIFIER_2G : float := 16384.0%float.
Definition ACCEL_SCALE_MODIFIER_4G : float := 8192.0%float.
Definition ACCEL_SCALE_MODIFIER_8G : float := 4096.0%float.
Definition ACCEL_SCALE_MODIFIER_16G : float := 2048.0%float.

Definition ACCEL_SCALE_MAP : gmap string float :=
  list_to_map [("2g", ACCEL_SCALE_MODIFIER_2G);
               ("4g", ACCEL_SCALE_MODIFIER_4G);
               ("8g", ACCEL_SCALE_MODIFIER_8G);
               ("16g", ACCEL_SCALE_MODIFIER_16G)].

Definition GYRO_SCALE_MODIFIER_250DEG : float := 131.0%float.
Definition GYRO_SCALE_MODIFIER_500DEG : float := 65.5%float.
Definition GYRO_SCALE_MODIFIER_1000DEG : float := 32.8%float.
Definition GYRO_SCALE_MODIFIER_2000DEG : float := 16.4%float.

Definition GYRO_SCALE_MAP : gmap string float :=
  list_to_map [("250deg", GYRO_SCALE_MODIFIER_250DEG);
               ("500deg", GYRO_SCALE_MODIFIER_500DEG);
               ("1000deg", GYRO_SCALE_MODIFIER_1000DEG);
               ("2000deg", GYRO_SCALE_MODIFIER_2000DEG)].

Definition ACCEL_RANGE_2G : Z := 0x00.
Definition ACCEL_RANGE_4G : Z := 0x08.
Definition ACCEL_RANGE_8G : Z := 0x10.
Definition ACCEL_RANGE_16G : Z := 0x18.

Definition ACCEL_RANGE_MAP : gmap string Z :=
  list_to_map [("2g", ACCEL_RANGE_2G);
               ("4g", ACCEL_RANGE_4G);
               ("8g", ACCEL_RANGE_8G);
               ("16g", ACCEL_RANGE_16G)].

Definition GYRO_RANGE_250DEG : Z := 0x00.
Definition GYRO_RANGE_500DEG : Z := 0x08.
Definition GYRO_RANGE_1000DEG : Z := 0x10.
Definition GYRO_RANGE_2000DEG : Z := 0x18.

Definition GYRO_RANGE_MAP : gmap string Z :=
  list_to_map [("250deg", GYRO_RANGE_250DEG);
               ("500deg", GYRO_RANGE_500DEG);
               ("1000deg", GYRO_RANGE_1000DEG);
               ("2000deg", GYRO_RANGE_2000DEG)].

Definition PWR_MGMT_1 : Z := 0x6B.
Definition PWR_MGMT_2 : Z := 0x6C.

Definition ACCEL_XOUTH : Z := 0x3B.
Definition ACCEL_XOUTL : Z := 0x3C.
Definition ACCEL_YOUTH : Z := 0x3D.
Definition ACCEL_YOUTL : Z := 0x3E.
Definition ACCEL_ZOUTH : Z := 0x3F.
Definition ACCEL_ZOUTL : Z := 0x40.

Definition TEMP_OUTH : Z := 0x41.
Definition TEMP_OUTL : Z := 0x41.

Definition GYRO_XOUTH : Z := 0x43.
Definition GYRO_XOUTL : Z := 0x44.
Definition GYRO_YOUTH : Z := 0x45.
Definition GYRO_YOUTL : Z := 0x46.
Definition GYRO_ZOUTH : Z := 0x47.
Definition GYRO_ZOUTL : Z := 0x48.

Definition ACCEL_CONFIG : Z := 0x1C.
Definition GYRO_CONFIG : Z := 0x1B.

End Const.
Import Const.

Section Driver.

(** The C library behind [math], and the sensor on the bus. *)
Variable libm_acos : float -> float.
Variable libm_pow : float -> float -> float.
Variable dev : device.

(** *** [self.bus] and the attributes *)

Definition issue (t : txn) (self : mpu6050) : mpu6050 :=
  Mpu6050 (address self) (bus self ++ [t]) (accel_range self) (gyro_range self).

(** [self.bus.read_byte_data(addr, register)] *)
Definition read_byte_data (addr register : Z) : M Z := fun self =>
  match answer_read dev (bus self) addr register with
  | Some b => (Return b, issue (ReadByte addr register) self)
  | None => (Raise OSError, issue (ReadByte addr register) self)
  end.

(** [self.bus.write_byte_data(addr, register, val)] *)
Definition write_byte_data (addr register val : Z) : M unit := fun self =>
  if answer_write dev (bus self) addr register val
  then (Return tt, issue (WriteByte addr register val) self)
  else (Raise OSError, issue (WriteByte addr register val) self).

(** [self.address] *)
Definition self_address : M Z := fun self => (Return (address self), self).

(** [self.accel_range] and [self.gyro_range], read: an attribute that was
    never assigned is an [AttributeError]. *)
Definition self_accel_range : M string := fun self =>
  match accel_range self with
  | Some r => (Return r, self)
  | None => (Raise AttributeError, self)
  end.

Definition self_gyro_range : M string := fun self =>
  match gyro_range self with
  | Some r => (Return r, self)
  | None => (Raise AttributeError, self)
  end.

(** [self.accel_range = r] and [self.gyro_range = r] *)
Definition assign_accel_range (r : string) : M unit := fun self =>
  (Return tt, Mpu6050 (address self) (bus self) (Some r) (gyro_range self)).

Definition assign_gyro_range (r : string) : M unit := fun self =>
  (Return tt, Mpu6050 (address self) (bus self) (accel_range self) (Some r)).

(** *** [read_i2c_word] *)

(** The value of the two bytes: [(high << 8) + low], read as a signed
    16-bit number. *)
Definition combine (high low : Z) : Z :=
  let value := (Z.shiftl high 8 + low)%Z in
  if (0x8000 <=? value)%Z then (- ((65535 - value) + 1))%Z else value.

Definition read_i2c_word (register : Z) : M value :=
  (addr <- self_address ;;
   first <- attempt (read_byte_data addr register) ;;
   match first with
   | Raise OSError => ret VNone
   | Raise e => raise e
   | Return high =>
       second <- attempt (read_byte_data addr (register + 1)) ;;
       match second with
       | Raise OSError => ret VNone
       | Raise e => raise e
       | Return low => ret (VInt (combine high low))
       end
   end)%method.

(** *** [get_temp] *)

Definition get_temp : M value :=
  (raw_temp <- read_i2c_word TEMP_OUTH ;;
   q <- lift (Py.truediv raw_temp (VFloat 340.0)) ;;
   actual_temp <- lift (Py.add q (VFloat 36.53)) ;;
   ret actual_temp)%method.

(** *** [set_accel_range] and [set_gyro_range] *)

Definition set_accel_range (r : string) : M unit :=
  match ACCEL_RANGE_MAP !! r with
  | None => raise ValueError
  | Some code =>
      (addr <- self_address ;;
       write_byte_data addr ACCEL_CONFIG 0x00 ;;
       write_byte_data addr ACCEL_CONFIG code ;;
       assign_accel_range r)%method
  end.

Definition set_gyro_range (r : string) : M unit :=
  match GYRO_RANGE_MAP !! r with
  | None => raise ValueError
  | Some code =>
      (addr <- self_address ;;
       write_byte_data addr GYRO_CONFIG 0x00 ;;
       write_byte_data addr GYRO_CONFIG code ;;
       assign_gyro_range r)%method
  end.

(** *** [get_accel_data] and [get_gyro_data] *)

(** [except TypeError: xyz = [None, None, None]] *)
Definition except_TypeError (o : outcome (list value)) : M (list value) :=
  match o with
  | Return l => ret l
  | Raise TypeError => ret [VNone; VNone; VNone]
  | Raise e => raise e
  end.

(** [{'x': xyz[0], 'y': xyz[1], 'z': xyz[2]}] *)
Definition as_dict (xyz : list value) : M vector :=
  match xyz with
  | a :: b :: c :: _ => ret (Vector a b c)
  | _ => raise IndexError
  end.

(** One element of the second comprehension of [get_accel_data]:
    [i / ACCEL_SCALE_MAP.get(self.accel_range) * GRAVITIY_MS2]. *)
Definition accel_convert (i : value) : M value :=
  (r <- self_accel_range ;;
   q <- lift (Py.truediv i (dict_get VFloat ACCEL_SCALE_MAP r)) ;;
   lift (Py.mul q (VFloat GRAVITIY_MS2)))%method.

Definition get_accel_data : M vector :=
  (xyz <- comprehension read_i2c_word [ACCEL_XOUTH; ACCEL_YOUTH; ACCEL_ZOUTH] ;;
   o <- attempt (comprehension accel_convert xyz) ;;
   xyz <- except_TypeError o ;;
   as_dict xyz)%method.

(** One element of the second comprehension of [get_gyro_data]:
    [i / GYRO_SCALE_MAP.get(self.gyro_range)]. *)
Definition gyro_convert (i : value) : M value :=
  (r <- self_gyro_range ;;
   lift (Py.truediv i (dict_get VFloat GYRO_SCALE_MAP r)))%method.

Definition get_gyro_data : M vector :=
  (xyz <- comprehension read_i2c_word [GYRO_XOUTH; GYRO_YOUTH; GYRO_ZOUTH] ;;
   o <- attempt (comprehension gyro_convert xyz) ;;
   xyz <- except_TypeError o ;;
   as_dict xyz)%method.

(** *** [calculate_angle] *)

Definition handles_ValueError_TypeError (e : exn) : bool :=
  match e with
  | ValueError | TypeError => true
  | _ => false
  end.

(** The expression under [try], in Python's order of evaluation (the
    subscripts [xyz['y']] and the like neither fail nor have an effect):
    the three squares and their sums, the square root, the quotient, the
    arc cosine, then [* 180] and [/ pi]. *)
Definition angle_expr (xyz : vector) : outcome value :=
  (xx <~ Py.pow2 libm_pow (x xyz);
   yy <~ Py.pow2 libm_pow (y xyz);
   s <~ Py.add xx yy;
   zz <~ Py.pow2 libm_pow (z xyz);
   s <~ Py.add s zz;
   magnitude <~ Py.math_sqrt s;
   ratio <~ Py.truediv (y xyz) magnitude;
   a <~ Py.math_acos libm_acos ratio;
   d <~ Py.mul a (VInt 180);
   Py.truediv d (VFloat Py.pi))%outcome.

Definition calculate_angle (xyz : vector) : M value :=
  lift (try_except (angle_expr xyz) handles_ValueError_TypeError (Return VNone)).

(** *** [__init__] *)

(** The attributes as [__init__] finds them, after
    [self.address = address] and [self.bus = smbus2.SMBus(bus)].  Opening
    the bus is [smbus2]'s: [init] is [__init__] from there on, with the bus
    open. *)
Definition fresh (address : Z) : mpu6050 := Mpu6050 address [] None None.

Definition init (address : Z) : outcome unit * mpu6050 :=
  (addr <- self_address ;;
   write_byte_data addr PWR_MGMT_1 0x00 ;;
   set_accel_range "4g" ;;
   set_gyro_range "500deg")%method (fresh address).

End Driver.

(** ** Devices to run the driver on *)

(** A sensor whose registers hold the bytes [regs] and whose bus never
    fails. *)
Definition steady (regs : Z -> Z) : device :=
  Device (fun _ _ register => Some (regs register mod 256)%Z) (fun _ _ _ _ => true).

(** [d], except that the transaction issued after [n] earlier ones fails. *)
Definition glitch (n : nat) (d : device) : device :=
  Device
    (fun h a r => if (length h =? n)%nat then None else answer_read d h a r)
    (fun h a r v => if (length h =? n)%nat then false else answer_write d h a r v).

(** Registers holding the big-endian words [w] at its keys. *)
Definition words (w : list (Z * Z)) (register : Z) : Z :=
  match find (fun '(k, _) => (k =? register)%Z || (k + 1 =? register)%Z) w with
  | Some (k, v) => if (k =? register)%Z then Z.shiftr v 8 else Z.land v 0xFF
  | None => 0
  end.


Definition sensor : mpu6050 := Mpu6050 0x68 [] (Some "2g") (Some "250deg").

(** An int that converts to a float without overflow. *)
Definition fits (w : Z) : bool := negb (is_infinity (Py.round_int w)).

(** [fits] on each of the [n] ints from [lo] on. *)
Definition fits_from (lo : Z) (n : positive) : bool :=
  snd (Pos.iter (fun '(w, ok) => ((w + 1)%Z, andb ok (fits w))) (lo, true) n).

(** What [read_i2c_word] returns: [None], or a signed 16-bit int. *)
Definition is_word (v : value) : Prop :=
  v = VNone \/ exists w, v = VInt w /\ (-32768 <= w <= 32767)%Z.

(** The record a vector read returns for the three words it read, [f]
    being the conversion of one raw value. *)
Definition converted (f : Z -> float) (a b c : value) : vector :=
  match a, b, c with
  | VInt xr, VInt yr, VInt zr => Vector (VFloat (f xr)) (VFloat (f yr)) (VFloat (f zr))
  | _, _, _ => Vector VNone VNone VNone
  end.

(** What a device returns for a read is a byte. *)
Definition byte_device (dev : device) : Prop :=
  forall h a r b, answer_read dev h a r = Some b -> (0 <= b <= 255)%Z.

(** The names the range maps know. *)
Definition accel_ranges : list string := ["2g"; "4g"; "8g"; "16g"].
Definition gyro_ranges : list string := ["250deg"; "500deg"; "1000deg"; "2000deg"].

(** Both range attributes are assigned and name a range of their map. *)
Definition valid (self : mpu6050) : Prop :=
  (exists r, accel_range self = Some r /\ r ∈ accel_ranges) /\
  (exists r, gyro_range self = Some r /\ r ∈ gyro_ranges).

(** The calls a client can make on an instance. *)
Inductive call : Type :=
| Call_read_i2c_word (register : Z)
| Call_get_temp
| Call_set_accel_range (r : string)
| Call_get_accel_data
| Call_calculate_angle (xyz : vector)
| Call_set_gyro_range (r : string)
| Call_get_gyro_data.

Section Reachable.

Variable libm_acos : float -> float.
Variable libm_pow : float -> float -> float.
Variable dev : device.

(** The instance after a call, whether it returned or raised. *)
Definition after (c : call) (self : mpu6050) : mpu6050 :=
  match c with
  | Call_read_i2c_word register => snd (read_i2c_word dev register self)
  | Call_get_temp => snd (get_temp dev self)
  | Call_set_accel_range r => snd (set_accel_range dev r self)
  | Call_get_accel_data => snd (get_accel_data dev self)
  | Call_calculate_angle xyz => snd (calculate_angle libm_acos libm_pow xyz self)
  | Call_set_gyro_range r => snd (set_gyro_range dev r self)
  | Call_get_gyro_data => snd (get_gyro_data dev self)
  end.

(** The instances a client can hold: built by an [__init__] that
    returned, then used through the methods. *)
Inductive reachable : mpu6050 -> Prop :=
| reachable_init (address : Z) :
    fst (init dev address) = Return tt -> reachable (snd (init dev address))
| reachable_call (c : call) (self : mpu6050) :
    reachable self -> reachable (after c self).

End Reachable.

(** [m] leaves the address and the two range attributes as they are,
    however it ends. *)
Definition keeps_attrs {A} (m : M A) : Prop :=
  forall self,
    address (snd (m self)) = address self /\
    accel_range (snd (m self)) = accel_range self /\
    gyro_range (snd (m self)) = gyro_range self.

(** A C library to run [calculate_angle] with: a [pow] that squares as the
    IEEE multiplication rounds, and [acos] at 1, 0 and -1, where it is 0 and
    the floats nearest to pi/2 and pi. *)
Definition pow_by_mul (a b : float) : float :=
  if (b =? 2)%float then (a * a)%float else nan.

Definition acos_at_0_1 (a : float) : float :=
  if (a =? 1)%float then 0%float
  else if (a =? 0)%float then 1.5707963267948966%float
  else if (a =? -1)%float then 3.141592653589793%float
  else nan.

(** The exceptions the arithmetic of [calculate_angle] can raise. *)
Definition arithmetic (e : exn) : Prop :=
  e = TypeError \/ e = ValueError \/ e = ZeroDivisionError \/ e = OverflowError.

(** [m] leaves the whole instance, bus history included, as it finds it. *)
Definition stateless {A} (m : M A) : Prop := forall self, snd (m self) = self.

(** The five writes of [__init__], in order. *)
Definition init_writes (a : Z) : list txn :=
  [WriteByte a PWR_MGMT_1 0x00;
   WriteByte a ACCEL_CONFIG 0x00; WriteByte a ACCEL_CONFIG ACCEL_RANGE_4G;
   WriteByte a GYRO_CONFIG 0x00; WriteByte a GYRO_CONFIG GYRO_RANGE_500DEG].

(** A read of a register between [lo] and [hi] at the address [a]. *)
Definition is_read (a lo hi : Z) (t : txn) : Prop :=
  exists r, t = ReadByte a r /\ (lo <= r <= hi)%Z.

(** A write to the register [register] at the address [a]. *)
Definition is_write (a register : Z) (t : txn) : Prop :=
  exists v, t = WriteByte a register v.

(** Whether the bus answers the transaction [t] without error after the
    history [h]. *)
Definition accepts (dev : device) (h : list txn) (t : txn) : bool :=
  match t with
  | ReadByte a register => bool_decide (is_Some (answer_read dev h a register))
  | WriteByte a register val => answer_write dev h a register val
  end.

(** The index of the first of the transactions [ts], issued in order after
    the history [h], that the bus fails. *)
Fixpoint first_failure (dev : device) (h : list txn) (ts : list txn) : option nat :=
  match ts with
  | [] => None
  | t :: ts' =>
      if accepts dev h t then option_map S (first_failure dev (h ++ [t]) ts')
      else Some 0%nat
  end.

(** * Properties *)

Local Open Scope Z_scope.

(** ** Words *)

Lemma combine_signed (high low : Z) :
  0 <= high <= 255 -> 0 <= low <= 255 ->
  combine high low =
    (if high * 256 + low <? 0x8000 then high * 256 + low else high * 256 + low - 65536).
Proof.
  intros Hh Hl. unfold combine. rewrite Z.shiftl_mul_pow2 by lia.
  change (2 ^ 8) with 256.
  destruct (Z.leb_spec 0x8000 (high * 256 + low));
    destruct (Z.ltb_spec (high * 256 + low) 0x8000); lia.
Qed.

Lemma combine_range (high low : Z) :
  0 <= high <= 255 -> 0 <= low <= 255 -> -32768 <= combine high low <= 32767.
Proof.
  intros Hh Hl. rewrite combine_signed by assumption.
  destruct (Z.ltb_spec (high * 256 + low) 0x8000); lia.
Qed.

Section ReadWord.

Variable dev : device.

(** The three ways a word read can go. *)
Lemma read_i2c_word_unfold (register : Z) (self : mpu6050) :
  read_i2c_word dev register self =
    let a := address self in
    let self1 := issue (ReadByte a register) self in
    let self2 := issue (ReadByte a (register + 1)) self1 in
    match answer_read dev (bus self) a register with
    | None => (Return VNone, self1)
    | Some high =>
        match answer_read dev (bus self1) a (register + 1) with
        | None => (Return VNone, self2)
        | Some low => (Return (VInt (combine high low)), self2)
        end
    end.
Proof.
  unfold read_i2c_word, bind, attempt, self_address, read_byte_data, ret. simpl.
  destruct (answer_read dev (bus self) (address self) register); simpl; [|reflexivity].
  destruct (answer_read dev _ (address self) (register + 1)); reflexivity.
Qed.

Lemma read_i2c_word_attrs (register : Z) (self : mpu6050) :
  let self' := snd (read_i2c_word dev register self) in
  address self' = address self /\
  accel_range self' = accel_range self /\
  gyro_range self' = gyro_range self.
Proof.
  rewrite read_i2c_word_unfold. simpl.
  destruct (answer_read dev (bus self) (address self) register); simpl; [|auto].
  destruct (answer_read dev _ (address self) (register + 1)); simpl; auto.
Qed.

End ReadWord.

(** C2. When both byte reads succeed with bytes [high] and [low],
    [read_i2c_word] returns the signed 16-bit reading of [high*256+low]:
    the value itself below 0x8000, the value minus 65536 from 0x8000 on. *)
Theorem read_i2c_word_twos_complement (dev : device) (self : mpu6050)
    (register high low : Z) :
  answer_read dev (bus self) (address self) register = Some high ->
  answer_read dev (bus self ++ [ReadByte (address self) register])
    (address self) (register + 1) = Some low ->
  0 <= high <= 255 -> 0 <= low <= 255 ->
  fst (read_i2c_word dev register self) =
    Return (VInt (if high * 256 + low <? 0x8000
                  then high * 256 + low
                  else high * 256 + low - 65536)).
Proof.
  intros H1 H2 Hh Hl. rewrite read_i2c_word_unfold. simpl.
  rewrite H1. simpl. rewrite H2. simpl.
  by rewrite combine_signed.
Qed.

(** The bytes (0x7F,0xFF), (0x80,0x00), (0xFF,0xFF) and (0x00,0x00) read
    as 32767, -32768, -1 and 0. *)
Lemma read_i2c_word_twos_complement_witness :
  fst (read_i2c_word (steady (words [(0x3B, 0x7FFF)])) 0x3B sensor) = Return (VInt 32767) /\
  fst (read_i2c_word (steady (words [(0x3B, 0x8000)])) 0x3B sensor) = Return (VInt (-32768)) /\
  fst (read_i2c_word (steady (words [(0x3B, 0xFFFF)])) 0x3B sensor) = Return (VInt (-1)) /\
  fst (read_i2c_word (steady (words [(0x3B, 0x0000)])) 0x3B sensor) = Return (VInt 0).
Proof.
  split; [|split; [|split]].
  - apply (read_i2c_word_twos_complement (steady (words [(0x3B, 0x7FFF)])) sensor 0x3B 0x7F 0xFF);
      [reflexivity | reflexivity | lia | lia].
  - apply (read_i2c_word_twos_complement (steady (words [(0x3B, 0x8000)])) sensor 0x3B 0x80 0x00);
      [reflexivity | reflexivity | lia | lia].
  - apply (read_i2c_word_twos_complement (steady (words [(0x3B, 0xFFFF)])) sensor 0x3B 0xFF 0xFF);
      [reflexivity | reflexivity | lia | lia].
  - apply (read_i2c_word_twos_complement (steady (words [(0x3B, 0x0000)])) sensor 0x3B 0x00 0x00);
      [reflexivity | reflexivity | lia | lia].
Defined.

(** C10. A word read whose high-byte read fails returns [None] after that
    one transaction: the read of [register + 1] is not issued.  When the
    high-byte read succeeds, the read of [register + 1] follows it. *)
Theorem read_i2c_word_transactions (dev : device) (self : mpu6050) (register : Z) :
  let a := address self in
  match answer_read dev (bus self) a register with
  | None =>
      read_i2c_word dev register self =
        (Return VNone,
         Mpu6050 a (bus self ++ [ReadByte a register]) (accel_range self) (gyro_range self))
  | Some _ =>
      bus (snd (read_i2c_word dev register self)) =
        bus self ++ [ReadByte a register; ReadByte a (register + 1)]
  end.
Proof.
  rewrite read_i2c_word_unfold. simpl.
  destruct (answer_read dev (bus self) (address self) register); [|reflexivity].
  destruct (answer_read dev _ (address self) (register + 1)); simpl;
    by rewrite <- app_assoc.
Qed.

(** ** Conversion of a word to a float *)

Lemma fits_from_spec (lo : Z) (n : positive) :
  fits_from lo n = true -> forall w, lo <= w < lo + Z.pos n -> fits w = true.
Proof.
  unfold fits_from.
  set (f := fun '(w, ok) => (w + 1, andb ok (fits w))).
  assert (Hinv : fst (Pos.iter f (lo, true) n) = lo + Z.pos n /\
                 (snd (Pos.iter f (lo, true) n) = true ->
                  forall w, lo <= w < lo + Z.pos n -> fits w = true)).
  { induction n as [|n IH] using Pos.peano_ind.
    - simpl. split; [reflexivity|]. intros H w Hw.
      by replace w with lo by lia.
    - rewrite Pos.iter_succ. destruct (Pos.iter f (lo, true) n) as [w' ok].
      simpl in IH |- *. destruct IH as [-> IH]. split; [lia|].
      intros H w Hw. apply andb_true_iff in H as [Hok Hfit].
      destruct (Z.eq_dec w (lo + Z.pos n)) as [->|Hne]; [exact Hfit|].
      apply IH; [exact Hok | lia]. }
  apply Hinv.
Qed.

Lemma words_fit : fits_from (-32768) 65536 = true.
Proof. vm_compute. reflexivity. Qed.

Lemma float_of_int_word (w : Z) :
  -32768 <= w <= 32767 -> Py.float_of_int w = Return (Py.round_int w).
Proof.
  intros Hw. unfold Py.float_of_int.
  assert (Hfit : fits w = true).
  { apply (fits_from_spec _ _ words_fit). lia. }
  unfold fits in Hfit. apply negb_true_iff in Hfit. simpl. by rewrite Hfit.
Qed.

(** [w / d] and [w / d * g] for a word [w] and a float divisor that is not
    zero. *)
Lemma truediv_word (w : Z) (d : float) :
  -32768 <= w <= 32767 -> (d =? 0)%float = false ->
  Py.truediv (VInt w) (VFloat d) = Return (VFloat (Py.round_int w / d)).
Proof.
  intros Hw Hd. unfold Py.truediv, Py.coerce. rewrite float_of_int_word by assumption.
  simpl. unfold Py.float_div. by rewrite Hd.
Qed.

Lemma truediv_None (w : value) : Py.truediv VNone w = Raise TypeError.
Proof. reflexivity. Qed.

(** ** Temperature *)

Section Temperature.

Variable dev : device.

Lemma get_temp_unfold (self : mpu6050) :
  get_temp dev self =
    match read_i2c_word dev TEMP_OUTH self with
    | (Return raw_temp, self') =>
        match Py.truediv raw_temp (VFloat 340.0) with
        | Return q => (Py.add q (VFloat 36.53), self')
        | Raise e => (Raise e, self')
        end
    | (Raise e, self') => (Raise e, self')
    end.
Proof.
  unfold get_temp, bind, lift, ret.
  destruct (read_i2c_word dev TEMP_OUTH self) as [[raw|e] self']; [|reflexivity].
  destruct (Py.truediv raw (VFloat 340.0)); [|reflexivity].
  destruct (Py.add _ _); reflexivity.
Qed.

End Temperature.

(** C7. [get_temp] reads its word at 0x41 (high byte) and 0x42 (low byte)
    and, both reads succeeding, returns [raw / 340.0 + 36.53] for the word
    [raw] they hold; the word 340 gives 37.53. *)
Theorem get_temp_reads_0x41_0x42 (dev : device) (self : mpu6050) (high low : Z) :
  answer_read dev (bus self) (address self) 0x41 = Some high ->
  answer_read dev (bus self ++ [ReadByte (address self) 0x41]) (address self) 0x42
    = Some low ->
  0 <= high <= 255 -> 0 <= low <= 255 ->
  get_temp dev self =
    (Return (VFloat (Py.round_int (combine high low) / 340.0 + 36.53)),
     Mpu6050 (address self)
       (bus self ++ [ReadByte (address self) 0x41; ReadByte (address self) 0x42])
       (accel_range self) (gyro_range self)) /\
  (combine high low = 340 -> fst (get_temp dev self) = Return (VFloat 37.53)).
Proof.
  intros H1 H2 Hh Hl.
  assert (Heq : get_temp dev self =
    (Return (VFloat (Py.round_int (combine high low) / 340.0 + 36.53)),
     Mpu6050 (address self)
       (bus self ++ [ReadByte (address self) 0x41; ReadByte (address self) 0x42])
       (accel_range self) (gyro_range self))).
  { rewrite get_temp_unfold, read_i2c_word_unfold.
    change TEMP_OUTH with 0x41. change (0x41 + 1) with 0x42. simpl.
    rewrite H1. simpl. rewrite H2.
    rewrite truediv_word by (auto using combine_range).
    unfold issue. simpl. by rewrite <- app_assoc. }
  split; [exact Heq|].
  intros Hraw. rewrite Heq, Hraw. simpl. vm_compute. reflexivity.
Qed.

Lemma get_temp_reads_0x41_0x42_witness :
  get_temp (steady (words [(0x41, 340)])) sensor =
    (Return (VFloat 37.53),
     Mpu6050 0x68 [ReadByte 0x68 0x41; ReadByte 0x68 0x42] (Some "2g") (Some "250deg")).
Proof.
  destruct (get_temp_reads_0x41_0x42 (steady (words [(0x41, 340)])) sensor 0x01 0x54)
    as [Heq _]; [reflexivity | reflexivity | lia | lia |].
  rewrite Heq. vm_compute. reflexivity.
Defined.

(** C4. When the word read fails, [read_i2c_word] returns [None] and raises
    nothing; [get_temp] then raises [TypeError], from [None / 340.0]. *)
Theorem get_temp_failed_read_TypeError (dev : device) (self : mpu6050) :
  fst (read_i2c_word dev TEMP_OUTH self) = Return VNone ->
  fst (get_temp dev self) = Raise TypeError.
Proof.
  intros Hread. rewrite get_temp_unfold.
  destruct (read_i2c_word dev TEMP_OUTH self) as [o self']. simpl in Hread.
  by rewrite Hread.
Qed.

Lemma get_temp_failed_read_TypeError_witness :
  fst (read_i2c_word (glitch 0 (steady (words [(0x41, 340)]))) TEMP_OUTH sensor)
    = Return VNone /\
  fst (get_temp (glitch 0 (steady (words [(0x41, 340)]))) sensor) = Raise TypeError.
Proof.
  split; [reflexivity|].
  apply (get_temp_failed_read_TypeError (glitch 0 (steady (words [(0x41, 340)]))) sensor).
  reflexivity.
Defined.

(** ** The range maps *)

Lemma ACCEL_RANGE_MAP_lookup (r : string) (code : Z) :
  ACCEL_RANGE_MAP !! r = Some code <->
  (r, code) ∈ [("2g", 0x00); ("4g", 0x08); ("8g", 0x10); ("16g", 0x18)].
Proof.
  unfold ACCEL_RANGE_MAP. symmetry. apply elem_of_list_to_map.
  compute_done.
Qed.

Lemma GYRO_RANGE_MAP_lookup (r : string) (code : Z) :
  GYRO_RANGE_MAP !! r = Some code <->
  (r, code) ∈ [("250deg", 0x00); ("500deg", 0x08); ("1000deg", 0x10); ("2000deg", 0x18)].
Proof.
  unfold GYRO_RANGE_MAP. symmetry. apply elem_of_list_to_map.
  compute_done.
Qed.

Lemma ACCEL_RANGE_MAP_None (r : string) :
  r ∉ accel_ranges -> ACCEL_RANGE_MAP !! r = None.
Proof. intros Hr. unfold ACCEL_RANGE_MAP. by apply not_elem_of_list_to_map. Qed.

Lemma GYRO_RANGE_MAP_None (r : string) :
  r ∉ gyro_ranges -> GYRO_RANGE_MAP !! r = None.
Proof. intros Hr. unfold GYRO_RANGE_MAP. by apply not_elem_of_list_to_map. Qed.

Lemma ACCEL_RANGE_MAP_Some (r : string) (code : Z) :
  ACCEL_RANGE_MAP !! r = Some code -> r ∈ accel_ranges.
Proof.
  intros H. apply ACCEL_RANGE_MAP_lookup in H.
  apply (list_elem_of_fmap_2 fst) in H. exact H.
Qed.

Lemma GYRO_RANGE_MAP_Some (r : string) (code : Z) :
  GYRO_RANGE_MAP !! r = Some code -> r ∈ gyro_ranges.
Proof.
  intros H. apply GYRO_RANGE_MAP_lookup in H.
  apply (list_elem_of_fmap_2 fst) in H. exact H.
Qed.

(** ** The range setters *)

Section Setters.

Variable dev : device.

Lemma set_accel_range_unfold (r : string) (code : Z) (self : mpu6050) :
  ACCEL_RANGE_MAP !! r = Some code ->
  set_accel_range dev r self =
    let a := address self in
    let w1 := WriteByte a 0x1C 0x00 in
    let w2 := WriteByte a 0x1C code in
    if answer_write dev (bus self) a 0x1C 0x00 then
      if answer_write dev (bus self ++ [w1]) a 0x1C code
      then (Return tt, Mpu6050 a (bus self ++ [w1; w2]) (Some r) (gyro_range self))
      else (Raise OSError,
            Mpu6050 a (bus self ++ [w1; w2]) (accel_range self) (gyro_range self))
    else (Raise OSError, Mpu6050 a (bus self ++ [w1]) (accel_range self) (gyro_range self)).
Proof.
  intros Hcode. unfold set_accel_range. rewrite Hcode.
  unfold bind, self_address, write_byte_data, assign_accel_range, issue.
  change ACCEL_CONFIG with 0x1C. simpl.
  destruct (answer_write dev (bus self) (address self) 28 0); simpl; [|reflexivity].
  destruct (answer_write dev _ (address self) 28 code); simpl;
    by rewrite <- app_assoc.
Qed.

Lemma set_gyro_range_unfold (r : string) (code : Z) (self : mpu6050) :
  GYRO_RANGE_MAP !! r = Some code ->
  set_gyro_range dev r self =
    let a := address self in
    let w1 := WriteByte a 0x1B 0x00 in
    let w2 := WriteByte a 0x1B code in
    if answer_write dev (bus self) a 0x1B 0x00 then
      if answer_write dev (bus self ++ [w1]) a 0x1B code
      then (Return tt, Mpu6050 a (bus self ++ [w1; w2]) (accel_range self) (Some r))
      else (Raise OSError,
            Mpu6050 a (bus self ++ [w1; w2]) (accel_range self) (gyro_range self))
    else (Raise OSError, Mpu6050 a (bus self ++ [w1]) (accel_range self) (gyro_range self)).
Proof.
  intros Hcode. unfold set_gyro_range. rewrite Hcode.
  unfold bind, self_address, write_byte_data, assign_gyro_range, issue.
  change GYRO_CONFIG with 0x1B. simpl.
  destruct (answer_write dev (bus self) (address self) 27 0); simpl; [|reflexivity].
  destruct (answer_write dev _ (address self) 27 code); simpl;
    by rewrite <- app_assoc.
Qed.

(** A setter leaves the other attributes alone, and its own either as it
    was or at the name it was given, which its map knows. *)
Lemma set_accel_range_attrs (r : string) (self : mpu6050) :
  let self' := snd (set_accel_range dev r self) in
  gyro_range self' = gyro_range self /\
  (accel_range self' = accel_range self \/
   accel_range self' = Some r /\ r ∈ accel_ranges).
Proof.
  destruct (ACCEL_RANGE_MAP !! r) as [code|] eqn:Hcode.
  - rewrite (set_accel_range_unfold r code) by assumption. simpl.
    apply ACCEL_RANGE_MAP_Some in Hcode.
    destruct (answer_write dev (bus self) (address self) 28 0); [|auto].
    destruct (answer_write dev _ (address self) 28 code); simpl; auto.
  - unfold set_accel_range. rewrite Hcode. simpl. auto.
Qed.

Lemma set_gyro_range_attrs (r : string) (self : mpu6050) :
  let self' := snd (set_gyro_range dev r self) in
  accel_range self' = accel_range self /\
  (gyro_range self' = gyro_range self \/
   gyro_range self' = Some r /\ r ∈ gyro_ranges).
Proof.
  destruct (GYRO_RANGE_MAP !! r) as [code|] eqn:Hcode.
  - rewrite (set_gyro_range_unfold r code) by assumption. simpl.
    apply GYRO_RANGE_MAP_Some in Hcode.
    destruct (answer_write dev (bus self) (address self) 27 0); [|auto].
    destruct (answer_write dev _ (address self) 27 code); simpl; auto.
  - unfold set_gyro_range. rewrite Hcode. simpl. auto.
Qed.

End Setters.

(** C5.  For a range its map knows, a setter writes
    0x00 to its config register (0x1C for the accelerometer, 0x1B for the
    gyroscope) and, only when that write succeeded, the range's code to the
    same register: two writes when the first succeeds, one when it fails.
    The attribute is assigned after both succeeded; when either fails the
    setter raises [OSError] and both attributes are as they were.  The
    codes are 0x00, 0x08, 0x10 and 0x18. *)
Theorem set_range_writes (dev : device) (self : mpu6050) (r : string) (code : Z) :
  let a := address self in
  (ACCEL_RANGE_MAP !! r = Some code ->
   (r, code) ∈ [("2g", 0x00); ("4g", 0x08); ("8g", 0x10); ("16g", 0x18)] /\
   set_accel_range dev r self =
     if answer_write dev (bus self) a 0x1C 0x00 then
       if answer_write dev (bus self ++ [WriteByte a 0x1C 0x00]) a 0x1C code
       then (Return tt,
             Mpu6050 a (bus self ++ [WriteByte a 0x1C 0x00; WriteByte a 0x1C code])
               (Some r) (gyro_range self))
       else (Raise OSError,
             Mpu6050 a (bus self ++ [WriteByte a 0x1C 0x00; WriteByte a 0x1C code])
               (accel_range self) (gyro_range self))
     else (Raise OSError,
           Mpu6050 a (bus self ++ [WriteByte a 0x1C 0x00])
             (accel_range self) (gyro_range self))) /\
  (GYRO_RANGE_MAP !! r = Some code ->
   (r, code) ∈ [("250deg", 0x00); ("500deg", 0x08); ("1000deg", 0x10); ("2000deg", 0x18)] /\
   set_gyro_range dev r self =
     if answer_write dev (bus self) a 0x1B 0x00 then
       if answer_write dev (bus self ++ [WriteByte a 0x1B 0x00]) a 0x1B code
       then (Return tt,
             Mpu6050 a (bus self ++ [WriteByte a 0x1B 0x00; WriteByte a 0x1B code])
               (accel_range self) (Some r))
       else (Raise OSError,
             Mpu6050 a (bus self ++ [WriteByte a 0x1B 0x00; WriteByte a 0x1B code])
               (accel_range self) (gyro_range self))
     else (Raise OSError,
           Mpu6050 a (bus self ++ [WriteByte a 0x1B 0x00])
             (accel_range self) (gyro_range self))).
Proof.
  simpl. split; intros Hcode.
  - split; [by apply ACCEL_RANGE_MAP_lookup|].
    by rewrite (set_accel_range_unfold dev r code).
  - split; [by apply GYRO_RANGE_MAP_lookup|].
    by rewrite (set_gyro_range_unfold dev r code).
Qed.

(** On a bus that never fails, ['8g'] and ['1000deg'] are set by the two
    writes each. *)
Lemma set_range_writes_witness :
  set_accel_range (steady (words [])) "8g" sensor =
    (Return tt,
     Mpu6050 0x68 [WriteByte 0x68 0x1C 0x00; WriteByte 0x68 0x1C 0x10]
       (Some "8g") (Some "250deg")) /\
  set_gyro_range (steady (words [])) "1000deg" sensor =
    (Return tt,
     Mpu6050 0x68 [WriteByte 0x68 0x1B 0x00; WriteByte 0x68 0x1B 0x10]
       (Some "2g") (Some "1000deg")).
Proof.
  split.
  - destruct (set_range_writes (steady (words [])) sensor "8g" 0x10) as [Ha _].
    destruct Ha as [_ Ha]; [reflexivity|]. rewrite Ha. reflexivity.
  - destruct (set_range_writes (steady (words [])) sensor "1000deg" 0x10) as [_ Hg].
    destruct Hg as [_ Hg]; [reflexivity|]. rewrite Hg. reflexivity.
Defined.

(** On a bus whose first transaction fails, setting ['8g'] issues the
    write of 0x00 and no second write, raises [OSError] and leaves both
    ranges as they were. *)
Lemma set_accel_range_first_write_fails :
  ACCEL_RANGE_MAP !! "8g" = Some 0x10 /\
  set_accel_range (glitch 0 (steady (words []))) "8g" sensor =
    (Raise OSError, Mpu6050 0x68 [WriteByte 0x68 0x1C 0x00] (Some "2g") (Some "250deg")) /\
  ~ (exists w1 w2,
       bus (snd (set_accel_range (glitch 0 (steady (words []))) "8g" sensor)) =
         bus sensor ++ [w1; w2]).
Proof.
  split; [reflexivity|]. split; [reflexivity|].
  intros (w1 & w2 & H). vm_compute in H. discriminate H.
Qed.

(** C6. A name that is not a range of the map makes the setter raise
    [ValueError] with the instance, bus history included, as it was. *)
Theorem set_range_invalid (dev : device) (self : mpu6050) (r : string) :
  (r ∉ accel_ranges -> set_accel_range dev r self = (Raise ValueError, self)) /\
  (r ∉ gyro_ranges -> set_gyro_range dev r self = (Raise ValueError, self)).
Proof.
  split; intros Hr.
  - unfold set_accel_range. by rewrite ACCEL_RANGE_MAP_None.
  - unfold set_gyro_range. by rewrite GYRO_RANGE_MAP_None.
Qed.

Lemma set_range_invalid_witness :
  set_accel_range (steady (words [])) "3g" sensor = (Raise ValueError, sensor) /\
  set_gyro_range (steady (words [])) "3g" sensor = (Raise ValueError, sensor).
Proof.
  destruct (set_range_invalid (steady (words [])) sensor "3g") as [Ha Hg].
  split; [apply Ha | apply Hg]; unfold accel_ranges, gyro_ranges;
    apply (bool_decide_unpack _); vm_compute; reflexivity.
Defined.

(** ** The vector reads *)

Section VectorReads.

Variable dev : device.

Lemma read_i2c_word_is_word (register : Z) (self : mpu6050) :
  byte_device dev ->
  exists v, fst (read_i2c_word dev register self) = Return v /\ is_word v.
Proof.
  intros Hdev. rewrite read_i2c_word_unfold. simpl.
  destruct (answer_read dev (bus self) (address self) register) as [high|] eqn:H1;
    [|exists VNone; split; [reflexivity | by left]].
  destruct (answer_read dev _ (address self) (register + 1)) as [low|] eqn:H2;
    [|exists VNone; split; [reflexivity | by left]].
  exists (VInt (combine high low)). split; [reflexivity|]. right.
  exists (combine high low). split; [reflexivity|].
  apply combine_range; eauto.
Qed.

(** The first comprehension of a vector read: every word read returns, so
    the list has a value per register, and the attributes are untouched. *)
Lemma comprehension_read_i2c_word (registers : list Z) (self : mpu6050) :
  byte_device dev ->
  exists xyz self',
    comprehension (read_i2c_word dev) registers self = (Return xyz, self') /\
    length xyz = length registers /\
    Forall is_word xyz /\
    address self' = address self /\
    accel_range self' = accel_range self /\
    gyro_range self' = gyro_range self.
Proof.
  intros Hdev. revert self.
  induction registers as [|register registers IH]; intros self.
  - exists [], self. simpl. unfold ret. repeat split; auto.
  - destruct (read_i2c_word_is_word register self Hdev) as (v & Hv & Hword).
    pose proof (read_i2c_word_attrs dev register self) as (Ha & Hacc & Hgyr).
    destruct (read_i2c_word dev register self) as [o self1] eqn:Hread.
    simpl in Hv, Ha, Hacc, Hgyr. subst o.
    destruct (IH self1) as (xyz & self' & Hrest & Hlen & Hall & Ha' & Hacc' & Hgyr').
    exists (v :: xyz), self'. simpl. unfold bind at 1. rewrite Hread.
    unfold bind at 1. rewrite Hrest. unfold ret.
    repeat split; [simpl; congruence | by constructor | congruence ..].
Qed.

End VectorReads.

(** The scale maps know every range, and no divisor is zero. *)
Lemma ACCEL_SCALE_MAP_lookup (r : string) :
  r ∈ accel_ranges ->
  exists d, ACCEL_SCALE_MAP !! r = Some d /\ (d =? 0)%float = false /\
    (r = "2g" -> d = 16384.0%float) /\ (r = "4g" -> d = 8192.0%float) /\
    (r = "8g" -> d = 4096.0%float) /\ (r = "16g" -> d = 2048.0%float).
Proof.
  unfold accel_ranges. intros Hr.
  repeat (apply elem_of_cons in Hr as [->|Hr]); [ | | | | by apply elem_of_nil in Hr].
  - exists 16384.0%float. repeat split; try reflexivity; discriminate.
  - exists 8192.0%float. repeat split; try reflexivity; discriminate.
  - exists 4096.0%float. repeat split; try reflexivity; discriminate.
  - exists 2048.0%float. repeat split; try reflexivity; discriminate.
Qed.

Lemma GYRO_SCALE_MAP_lookup (r : string) :
  r ∈ gyro_ranges ->
  exists d, GYRO_SCALE_MAP !! r = Some d /\ (d =? 0)%float = false /\
    (r = "250deg" -> d = 131.0%float) /\ (r = "500deg" -> d = 65.5%float) /\
    (r = "1000deg" -> d = 32.8%float) /\ (r = "2000deg" -> d = 16.4%float).
Proof.
  unfold gyro_ranges. intros Hr.
  repeat (apply elem_of_cons in Hr as [->|Hr]); [ | | | | by apply elem_of_nil in Hr].
  - exists 131.0%float. repeat split; try reflexivity; discriminate.
  - exists 65.5%float. repeat split; try reflexivity; discriminate.
  - exists 32.8%float. repeat split; try reflexivity; discriminate.
  - exists 16.4%float. repeat split; try reflexivity; discriminate.
Qed.

Section Conversion.

Variable self : mpu6050.
Variable r : string.
Variable d : float.
Hypothesis d_not_zero : (d =? 0)%float = false.

Lemma accel_convert_word (w : Z) :
  accel_range self = Some r -> ACCEL_SCALE_MAP !! r = Some d ->
  -32768 <= w <= 32767 ->
  accel_convert (VInt w) self =
    (Return (VFloat (Py.round_int w / d * GRAVITIY_MS2)), self).
Proof.
  intros Hr Hd Hw. unfold accel_convert, bind, self_accel_range, lift, dict_get.
  rewrite Hr, Hd. simpl. by rewrite truediv_word.
Qed.

Lemma accel_convert_None :
  accel_range self = Some r -> ACCEL_SCALE_MAP !! r = Some d ->
  accel_convert VNone self = (Raise TypeError, self).
Proof.
  intros Hr Hd. unfold accel_convert, bind, self_accel_range, lift, dict_get.
  by rewrite Hr, Hd.
Qed.

Lemma gyro_convert_word (w : Z) :
  gyro_range self = Some r -> GYRO_SCALE_MAP !! r = Some d ->
  -32768 <= w <= 32767 ->
  gyro_convert (VInt w) self = (Return (VFloat (Py.round_int w / d)), self).
Proof.
  intros Hr Hd Hw. unfold gyro_convert, bind, self_gyro_range, lift, dict_get.
  rewrite Hr, Hd. simpl. by rewrite truediv_word.
Qed.

Lemma gyro_convert_None :
  gyro_range self = Some r -> GYRO_SCALE_MAP !! r = Some d ->
  gyro_convert VNone self = (Raise TypeError, self).
Proof.
  intros Hr Hd. unfold gyro_convert, bind, self_gyro_range, lift, dict_get.
  by rewrite Hr, Hd.
Qed.

End Conversion.

Section VectorResults.

Variable dev : device.

(** [get_accel_data] once the three words are read: the converted vector
    when all three are ints, three [None] as soon as one is [None]. *)
Lemma get_accel_data_after_reads (self self' : mpu6050) (r : string) (d : float)
    (a b c : value) :
  comprehension (read_i2c_word dev) [ACCEL_XOUTH; ACCEL_YOUTH; ACCEL_ZOUTH] self
    = (Return [a; b; c], self') ->
  accel_range self' = Some r -> ACCEL_SCALE_MAP !! r = Some d ->
  (d =? 0)%float = false ->
  is_word a -> is_word b -> is_word c ->
  get_accel_data dev self =
    (Return (converted (fun w => Py.round_int w / d * GRAVITIY_MS2)%float a b c), self').
Proof.
  intros Hreads Hr Hd Hnz Ha Hb Hc.
  unfold get_accel_data. unfold bind at 1. rewrite Hreads.
  destruct Ha as [->|(xr & -> & Hx)]; destruct Hb as [->|(yr & -> & Hy)];
    destruct Hc as [->|(zr & -> & Hz)];
    simpl comprehension; unfold bind, attempt;
    rewrite ?(accel_convert_word self' r d Hnz), ?(accel_convert_None self' r d)
      by assumption;
    reflexivity.
Qed.

Lemma get_gyro_data_after_reads (self self' : mpu6050) (r : string) (d : float)
    (a b c : value) :
  comprehension (read_i2c_word dev) [GYRO_XOUTH; GYRO_YOUTH; GYRO_ZOUTH] self
    = (Return [a; b; c], self') ->
  gyro_range self' = Some r -> GYRO_SCALE_MAP !! r = Some d ->
  (d =? 0)%float = false ->
  is_word a -> is_word b -> is_word c ->
  get_gyro_data dev self =
    (Return (converted (fun w => Py.round_int w / d)%float a b c), self').
Proof.
  intros Hreads Hr Hd Hnz Ha Hb Hc.
  unfold get_gyro_data. unfold bind at 1. rewrite Hreads.
  destruct Ha as [->|(xr & -> & Hx)]; destruct Hb as [->|(yr & -> & Hy)];
    destruct Hc as [->|(zr & -> & Hz)];
    simpl comprehension; unfold bind, attempt;
    rewrite ?(gyro_convert_word self' r d Hnz), ?(gyro_convert_None self' r d)
      by assumption;
    reflexivity.
Qed.

Lemma three_words (registers : list Z) (self : mpu6050) :
  byte_device dev -> length registers = 3%nat ->
  exists a b c self',
    comprehension (read_i2c_word dev) registers self = (Return [a; b; c], self') /\
    is_word a /\ is_word b /\ is_word c /\
    accel_range self' = accel_range self /\ gyro_range self' = gyro_range self.
Proof.
  intros Hdev Hlen.
  destruct (comprehension_read_i2c_word dev registers self Hdev)
    as (xyz & self' & Hreads & Hlen' & Hall & _ & Hacc & Hgyr).
  rewrite Hlen in Hlen'.
  destruct xyz as [|a [|b [|c [|? ?]]]]; try discriminate Hlen'.
  exists a, b, c, self'.
  inversion Hall as [|? ? Ha Hall1]; subst.
  inversion Hall1 as [|? ? Hb Hall2]; subst.
  inversion Hall2 as [|? ? Hc _]; subst.
  auto 10.
Qed.

End VectorResults.

Lemma converted_all_or_nothing (f : Z -> float) (a b c : value) :
  is_word a -> is_word b -> is_word c ->
  (VNone ∈ [a; b; c] -> converted f a b c = Vector VNone VNone VNone) /\
  (VNone ∉ [a; b; c] ->
   exists fx fy fz, converted f a b c = Vector (VFloat fx) (VFloat fy) (VFloat fz)).
Proof.
  intros Ha Hb Hc.
  destruct Ha as [->|(xr & -> & _)]; destruct Hb as [->|(yr & -> & _)];
    destruct Hc as [->|(zr & -> & _)]; simpl;
    (split; [intros Hin | intros Hnotin]); try reflexivity;
    try (exfalso; apply Hnotin; rewrite !elem_of_cons; tauto).
  - exfalso. rewrite !elem_of_cons, elem_of_nil in Hin.
    destruct Hin as [Hin|[Hin|[Hin|[]]]]; discriminate Hin.
  - eauto.
Qed.

Lemma converted_words (f : Z -> float) (a b c : value) :
  is_word a -> is_word b -> is_word c ->
  VNone ∉ [a; b; c] ->
  exists xr yr zr,
    a = VInt xr /\ b = VInt yr /\ c = VInt zr /\
    converted f a b c = Vector (VFloat (f xr)) (VFloat (f yr)) (VFloat (f zr)).
Proof.
  intros Ha Hb Hc Hnotin.
  destruct Ha as [->|(xr & -> & _)]; destruct Hb as [->|(yr & -> & _)];
    destruct Hc as [->|(zr & -> & _)];
    try (exfalso; apply Hnotin; rewrite !elem_of_cons; tauto).
  by exists xr, yr, zr.
Qed.

(** C3. On a constructed instance, a vector read returns a record whose
    three fields are all [None] as soon as one of the three word reads
    failed; when the three succeeded with the ints [xr], [yr], [zr], the
    three fields are the converted numbers: [raw / d * 9.80665] for the
    accelerometer and [raw / d] for the gyroscope, [d] being the divisor of
    the stored range. *)
Theorem vector_reads_all_or_nothing (dev : device) (self : mpu6050) :
  byte_device dev -> valid self ->
  (exists ra d a b c v self',
     accel_range self = Some ra /\ ACCEL_SCALE_MAP !! ra = Some d /\
     comprehension (read_i2c_word dev) [ACCEL_XOUTH; ACCEL_YOUTH; ACCEL_ZOUTH] self
       = (Return [a; b; c], self') /\
     get_accel_data dev self = (Return v, self') /\
     (VNone ∈ [a; b; c] -> v = Vector VNone VNone VNone) /\
     (VNone ∉ [a; b; c] ->
      exists xr yr zr,
        a = VInt xr /\ b = VInt yr /\ c = VInt zr /\
        v = Vector (VFloat (Py.round_int xr / d * GRAVITIY_MS2))
                   (VFloat (Py.round_int yr / d * GRAVITIY_MS2))
                   (VFloat (Py.round_int zr / d * GRAVITIY_MS2)))) /\
  (exists rg d a b c v self',
     gyro_range self = Some rg /\ GYRO_SCALE_MAP !! rg = Some d /\
     comprehension (read_i2c_word dev) [GYRO_XOUTH; GYRO_YOUTH; GYRO_ZOUTH] self
       = (Return [a; b; c], self') /\
     get_gyro_data dev self = (Return v, self') /\
     (VNone ∈ [a; b; c] -> v = Vector VNone VNone VNone) /\
     (VNone ∉ [a; b; c] ->
      exists xr yr zr,
        a = VInt xr /\ b = VInt yr /\ c = VInt zr /\
        v = Vector (VFloat (Py.round_int xr / d))
                   (VFloat (Py.round_int yr / d))
                   (VFloat (Py.round_int zr / d)))).
Proof.
  intros Hdev [(ra & Hra & Hina) (rg & Hrg & Hing)]. split.
  - destruct (three_words dev [ACCEL_XOUTH; ACCEL_YOUTH; ACCEL_ZOUTH] self Hdev eq_refl)
      as (a & b & c & self' & Hreads & Ha & Hb & Hc & Hacc & _).
    destruct (ACCEL_SCALE_MAP_lookup ra Hina) as (d & Hd & Hnz & _).
    rewrite Hra in Hacc.
    exists ra, d, a, b, c,
      (converted (fun w => Py.round_int w / d * GRAVITIY_MS2)%float a b c), self'.
    split; [exact Hra|]. split; [exact Hd|]. split; [exact Hreads|].
    split; [by apply (get_accel_data_after_reads dev self self' ra d)|].
    split; [by apply converted_all_or_nothing|].
    by apply (converted_words (fun w => Py.round_int w / d * GRAVITIY_MS2)%float).
  - destruct (three_words dev [GYRO_XOUTH; GYRO_YOUTH; GYRO_ZOUTH] self Hdev eq_refl)
      as (a & b & c & self' & Hreads & Ha & Hb & Hc & _ & Hgyr).
    destruct (GYRO_SCALE_MAP_lookup rg Hing) as (d & Hd & Hnz & _).
    rewrite Hrg in Hgyr.
    exists rg, d, a, b, c, (converted (fun w => Py.round_int w / d)%float a b c), self'.
    split; [exact Hrg|]. split; [exact Hd|]. split; [exact Hreads|].
    split; [by apply (get_gyro_data_after_reads dev self self' rg d)|].
    split; [by apply converted_all_or_nothing|].
    by apply (converted_words (fun w => Py.round_int w / d)%float).
Qed.

Lemma byte_device_steady (regs : Z -> Z) : byte_device (steady regs).
Proof.
  intros h a r b Hb. simpl in Hb. injection Hb as <-.
  pose proof (Z.mod_pos_bound (regs r) 256). lia.
Qed.

Lemma byte_device_glitch (n : nat) (d : device) :
  byte_device d -> byte_device (glitch n d).
Proof.
  intros Hd h a r b Hb. simpl in Hb.
  destruct (length h =? n)%nat; [discriminate Hb | eauto].
Qed.

Lemma valid_sensor : valid sensor.
Proof.
  split; [exists "2g" | exists "250deg"]; (split; [reflexivity | apply list_elem_of_here]).
Qed.

(** With the read of the low byte of Y failing, the record is three
    [None]; the six byte reads were all issued. *)
Lemma vector_reads_all_or_nothing_witness :
  get_accel_data (glitch 3 (steady (words [(0x3B, 16384)]))) sensor =
    (Return (Vector VNone VNone VNone),
     Mpu6050 0x68
       [ReadByte 0x68 0x3B; ReadByte 0x68 0x3C; ReadByte 0x68 0x3D;
        ReadByte 0x68 0x3E; ReadByte 0x68 0x3F; ReadByte 0x68 0x40]
       (Some "2g") (Some "250deg")).
Proof.
  pose proof (vector_reads_all_or_nothing (glitch 3 (steady (words [(0x3B, 16384)]))) sensor
                (byte_device_glitch 3 _ (byte_device_steady _)) valid_sensor) as [Hacc _].
  destruct Hacc as (ra & d & a & b & c & v & self' & _ & _ & Hreads & Hget & Hnone & _).
  vm_compute in Hreads. injection Hreads as <- <- <- <-.
  rewrite Hget. f_equal. f_equal. apply Hnone.
  apply list_elem_of_further, list_elem_of_here.
Defined.

(** ** Conversion of the acceleration *)

Lemma accel_16384_at_2g :
  (Py.round_int 16384 / 16384.0 * GRAVITIY_MS2)%float = 9.80665%float.
Proof. vm_compute. reflexivity. Qed.

Lemma accel_0_at_2g : (Py.round_int 0 / 16384.0 * GRAVITIY_MS2)%float = 0%float.
Proof. vm_compute. reflexivity. Qed.

(** C8. When the three word reads return the ints [xr], [yr], [zr],
    [get_accel_data] returns [raw / d * 9.80665] for each, where [d] is
    the divisor of the current range: 16384.0 for 2g, 8192.0 for 4g, 4096.0
    for 8g, 2048.0 for 16g.  The words (16384, 0, 0) at 2g give
    (9.80665, 0, 0). *)
Theorem get_accel_data_conversion (dev : device) (self self' : mpu6050)
    (r : string) (xr yr zr : Z) :
  byte_device dev ->
  accel_range self = Some r -> r ∈ accel_ranges ->
  comprehension (read_i2c_word dev) [ACCEL_XOUTH; ACCEL_YOUTH; ACCEL_ZOUTH] self
    = (Return [VInt xr; VInt yr; VInt zr], self') ->
  exists d,
    ACCEL_SCALE_MAP !! r = Some d /\
    (r = "2g" -> d = 16384.0%float) /\ (r = "4g" -> d = 8192.0%float) /\
    (r = "8g" -> d = 4096.0%float) /\ (r = "16g" -> d = 2048.0%float) /\
    get_accel_data dev self =
      (Return (Vector (VFloat (Py.round_int xr / d * 9.80665))
                      (VFloat (Py.round_int yr / d * 9.80665))
                      (VFloat (Py.round_int zr / d * 9.80665))), self') /\
    (r = "2g" -> xr = 16384 -> yr = 0 -> zr = 0 ->
     get_accel_data dev self =
       (Return (Vector (VFloat 9.80665) (VFloat 0) (VFloat 0)), self')).
Proof.
  intros Hdev Hr Hin Hreads.
  destruct (three_words dev [ACCEL_XOUTH; ACCEL_YOUTH; ACCEL_ZOUTH] self Hdev eq_refl)
    as (a & b & c & self1 & Hreads1 & Ha & Hb & Hc & Hacc & _).
  rewrite Hreads in Hreads1. simplify_eq.
  destruct (ACCEL_SCALE_MAP_lookup r Hin) as (d & Hd & Hnz & H2 & H4 & H8 & H16).
  rewrite Hr in Hacc.
  pose proof (get_accel_data_after_reads dev self self1 r d _ _ _
                Hreads Hacc Hd Hnz Ha Hb Hc) as Hget.
  simpl in Hget. change GRAVITIY_MS2 with 9.80665%float in Hget.
  exists d. repeat (split; [assumption|]).
  intros -> -> -> ->. rewrite Hget, (H2 eq_refl).
  change 9.80665%float with GRAVITIY_MS2 at 1 2 3.
  by rewrite accel_16384_at_2g, accel_0_at_2g.
Qed.

Lemma get_accel_data_conversion_witness :
  get_accel_data (steady (words [(0x3B, 16384)])) sensor =
    (Return (Vector (VFloat 9.80665) (VFloat 0) (VFloat 0)),
     Mpu6050 0x68
       [ReadByte 0x68 0x3B; ReadByte 0x68 0x3C; ReadByte 0x68 0x3D;
        ReadByte 0x68 0x3E; ReadByte 0x68 0x3F; ReadByte 0x68 0x40]
       (Some "2g") (Some "250deg")).
Proof.
  destruct (get_accel_data_conversion (steady (words [(0x3B, 16384)])) sensor
              (Mpu6050 0x68
                 [ReadByte 0x68 0x3B; ReadByte 0x68 0x3C; ReadByte 0x68 0x3D;
                  ReadByte 0x68 0x3E; ReadByte 0x68 0x3F; ReadByte 0x68 0x40]
                 (Some "2g") (Some "250deg"))
              "2g" 16384 0 0 (byte_device_steady _) eq_refl (list_elem_of_here _ _) eq_refl)
    as (d & _ & _ & _ & _ & _ & _ & Hex).
  apply Hex; reflexivity.
Defined.

(** ** What leaves the attributes alone *)

Lemma keeps_attrs_ret {A} (a : A) : keeps_attrs (ret a).
Proof. by intros self. Qed.

Lemma keeps_attrs_raise {A} (e : exn) : keeps_attrs (@raise A e).
Proof. by intros self. Qed.

Lemma keeps_attrs_lift {A} (o : outcome A) : keeps_attrs (lift o).
Proof. by intros self. Qed.

Lemma keeps_attrs_bind {A B} (m : M A) (k : A -> M B) :
  keeps_attrs m -> (forall a, keeps_attrs (k a)) -> keeps_attrs (bind m k).
Proof.
  intros Hm Hk self. unfold bind. specialize (Hm self).
  destruct (m self) as [[a|e] self1]; simpl in Hm; [|exact Hm].
  destruct (Hk a self1) as (H1 & H2 & H3), Hm as (H4 & H5 & H6).
  repeat split; congruence.
Qed.

Lemma keeps_attrs_attempt {A} (m : M A) : keeps_attrs m -> keeps_attrs (attempt m).
Proof.
  intros Hm self. unfold attempt. specialize (Hm self).
  destruct (m self) as [o self1]. exact Hm.
Qed.

Lemma keeps_attrs_comprehension {A B} (f : A -> M B) (l : list A) :
  (forall i, keeps_attrs (f i)) -> keeps_attrs (comprehension f l).
Proof.
  intros Hf. induction l as [|i l IH]; simpl.
  - apply keeps_attrs_ret.
  - apply keeps_attrs_bind; [apply Hf|]. intros b.
    apply keeps_attrs_bind; [exact IH|]. intros bs. apply keeps_attrs_ret.
Qed.

Lemma keeps_attrs_read_i2c_word (dev : device) (register : Z) :
  keeps_attrs (read_i2c_word dev register).
Proof. intros self. apply read_i2c_word_attrs. Qed.

Lemma keeps_attrs_get_temp (dev : device) : keeps_attrs (get_temp dev).
Proof.
  unfold get_temp. apply keeps_attrs_bind; [apply keeps_attrs_read_i2c_word|].
  intros raw. apply keeps_attrs_bind; [apply keeps_attrs_lift|].
  intros q. apply keeps_attrs_bind; [apply keeps_attrs_lift|].
  intros t. apply keeps_attrs_ret.
Qed.

Lemma keeps_attrs_self_accel_range : keeps_attrs self_accel_range.
Proof. intros self. unfold self_accel_range. destruct (accel_range self) eqn:E; simpl; rewrite ?E; auto. Qed.

Lemma keeps_attrs_self_gyro_range : keeps_attrs self_gyro_range.
Proof. intros self. unfold self_gyro_range. destruct (gyro_range self) eqn:E; simpl; rewrite ?E; auto. Qed.

Lemma keeps_attrs_accel_convert (i : value) : keeps_attrs (accel_convert i).
Proof.
  unfold accel_convert. apply keeps_attrs_bind; [apply keeps_attrs_self_accel_range|].
  intros r. apply keeps_attrs_bind; [apply keeps_attrs_lift|].
  intros q. apply keeps_attrs_lift.
Qed.

Lemma keeps_attrs_gyro_convert (i : value) : keeps_attrs (gyro_convert i).
Proof.
  unfold gyro_convert. apply keeps_attrs_bind; [apply keeps_attrs_self_gyro_range|].
  intros r. apply keeps_attrs_lift.
Qed.

Lemma keeps_attrs_except_TypeError (o : outcome (list value)) :
  keeps_attrs (except_TypeError o).
Proof. intros self. destruct o as [l|[]]; simpl; auto. Qed.

Lemma keeps_attrs_as_dict (xyz : list value) : keeps_attrs (as_dict xyz).
Proof. intros self. destruct xyz as [|a [|b [|c xyz]]]; simpl; auto. Qed.

Lemma keeps_attrs_get_accel_data (dev : device) : keeps_attrs (get_accel_data dev).
Proof.
  unfold get_accel_data.
  apply keeps_attrs_bind;
    [apply keeps_attrs_comprehension, keeps_attrs_read_i2c_word|].
  intros xyz. apply keeps_attrs_bind;
    [apply keeps_attrs_attempt, keeps_attrs_comprehension, keeps_attrs_accel_convert|].
  intros o. apply keeps_attrs_bind; [apply keeps_attrs_except_TypeError|].
  intros xyz'. apply keeps_attrs_as_dict.
Qed.

Lemma keeps_attrs_get_gyro_data (dev : device) : keeps_attrs (get_gyro_data dev).
Proof.
  unfold get_gyro_data.
  apply keeps_attrs_bind;
    [apply keeps_attrs_comprehension, keeps_attrs_read_i2c_word|].
  intros xyz. apply keeps_attrs_bind;
    [apply keeps_attrs_attempt, keeps_attrs_comprehension, keeps_attrs_gyro_convert|].
  intros o. apply keeps_attrs_bind; [apply keeps_attrs_except_TypeError|].
  intros xyz'. apply keeps_attrs_as_dict.
Qed.

Lemma keeps_attrs_calculate_angle (libm_acos : float -> float)
    (libm_pow : float -> float -> float) (xyz : vector) :
  keeps_attrs (calculate_angle libm_acos libm_pow xyz).
Proof. apply keeps_attrs_lift. Qed.

(** ** The invariant of the range attributes *)

Lemma valid_keeps_attrs {A} (m : M A) (self : mpu6050) :
  keeps_attrs m -> valid self -> valid (snd (m self)).
Proof.
  intros Hm Hv. destruct (Hm self) as (_ & Hacc & Hgyr).
  unfold valid. by rewrite Hacc, Hgyr.
Qed.

Lemma valid_set_accel_range (dev : device) (r : string) (self : mpu6050) :
  valid self -> valid (snd (set_accel_range dev r self)).
Proof.
  intros [Hacc Hgyr].
  destruct (set_accel_range_attrs dev r self) as [Hg [Ha|[Ha Hin]]];
    (split; [|by rewrite Hg]).
  - by rewrite Ha.
  - by exists r.
Qed.

Lemma valid_set_gyro_range (dev : device) (r : string) (self : mpu6050) :
  valid self -> valid (snd (set_gyro_range dev r self)).
Proof.
  intros [Hacc Hgyr].
  destruct (set_gyro_range_attrs dev r self) as [Ha [Hg|[Hg Hin]]];
    (split; [by rewrite Ha|]).
  - by rewrite Hg.
  - by exists r.
Qed.

Lemma valid_after (libm_acos : float -> float) (libm_pow : float -> float -> float)
    (dev : device) (c : call) (self : mpu6050) :
  valid self -> valid (after libm_acos libm_pow dev c self).
Proof.
  intros Hv. destruct c; cbn [after].
  - by apply valid_keeps_attrs; [apply keeps_attrs_read_i2c_word|].
  - by apply valid_keeps_attrs; [apply keeps_attrs_get_temp|].
  - by apply valid_set_accel_range.
  - by apply valid_keeps_attrs; [apply keeps_attrs_get_accel_data|].
  - by apply valid_keeps_attrs; [apply keeps_attrs_calculate_angle|].
  - by apply valid_set_gyro_range.
  - by apply valid_keeps_attrs; [apply keeps_attrs_get_gyro_data|].
Qed.

(** What [__init__] does, by the answers of the bus to its five writes. *)
Lemma init_unfold (dev : device) (a : Z) :
  let w1 := WriteByte a 0x6B 0x00 in
  let w2 := WriteByte a 0x1C 0x00 in
  let w3 := WriteByte a 0x1C 0x08 in
  let w4 := WriteByte a 0x1B 0x00 in
  let w5 := WriteByte a 0x1B 0x08 in
  init dev a =
    if answer_write dev [] a 0x6B 0x00 then
      if answer_write dev [w1] a 0x1C 0x00 then
        if answer_write dev [w1; w2] a 0x1C 0x08 then
          if answer_write dev [w1; w2; w3] a 0x1B 0x00 then
            if answer_write dev [w1; w2; w3; w4] a 0x1B 0x08
            then (Return tt, Mpu6050 a [w1; w2; w3; w4; w5] (Some "4g") (Some "500deg"))
            else (Raise OSError, Mpu6050 a [w1; w2; w3; w4; w5] (Some "4g") None)
          else (Raise OSError, Mpu6050 a [w1; w2; w3; w4] (Some "4g") None)
        else (Raise OSError, Mpu6050 a [w1; w2; w3] None None)
      else (Raise OSError, Mpu6050 a [w1; w2] None None)
    else (Raise OSError, Mpu6050 a [w1] None None).
Proof.
  cbv zeta. unfold init. unfold bind at 1. unfold self_address at 1.
  cbv beta iota. unfold bind at 1. unfold write_byte_data at 1, fresh, issue.
  change PWR_MGMT_1 with 0x6B. cbn [address bus accel_range gyro_range app].
  destruct (answer_write dev [] a 0x6B 0x00); [|reflexivity].
  unfold bind at 1.
  rewrite (set_accel_range_unfold dev "4g" 0x08) by reflexivity.
  cbv zeta. cbn [address bus accel_range gyro_range app].
  destruct (answer_write dev [WriteByte a 0x6B 0x00] a 0x1C 0x00); [|reflexivity].
  destruct (answer_write dev _ a 0x1C 0x08); [|reflexivity].
  rewrite (set_gyro_range_unfold dev "500deg" 0x08) by reflexivity.
  cbv zeta. cbn [address bus accel_range gyro_range app].
  destruct (answer_write dev _ a 0x1B 0x00); [|reflexivity].
  destruct (answer_write dev _ a 0x1B 0x08); reflexivity.
Qed.

Lemma valid_init (dev : device) (a : Z) :
  fst (init dev a) = Return tt -> valid (snd (init dev a)).
Proof.
  rewrite init_unfold. cbv zeta.
  repeat (destruct (answer_write dev _ _ _ _); [|discriminate 1]).
  intros _. split; [exists "4g" | exists "500deg"];
    (split; [reflexivity | apply list_elem_of_further, list_elem_of_here]).
Qed.

Lemma reachable_valid (libm_acos : float -> float) (libm_pow : float -> float -> float)
    (dev : device) (self : mpu6050) :
  reachable libm_acos libm_pow dev self -> valid self.
Proof.
  induction 1 as [a Hinit | c self _ IH].
  - by apply valid_init.
  - by apply valid_after.
Qed.

(** C9. On every instance a client can hold -- built by an [__init__] that
    returned, then used through any calls, whether they returned or raised
    -- [accel_range] is one of '2g', '4g', '8g', '16g' and [gyro_range] one
    of '250deg', '500deg', '1000deg', '2000deg', and the lookups of the two
    scale maps the vector reads make find a divisor. *)
Theorem range_invariant (libm_acos : float -> float)
    (libm_pow : float -> float -> float) (dev : device) (self : mpu6050) :
  reachable libm_acos libm_pow dev self ->
  exists ra rg da dg,
    accel_range self = Some ra /\ ra ∈ accel_ranges /\
    gyro_range self = Some rg /\ rg ∈ gyro_ranges /\
    dict_get VFloat ACCEL_SCALE_MAP ra = VFloat da /\
    dict_get VFloat GYRO_SCALE_MAP rg = VFloat dg.
Proof.
  intros Hreach.
  destruct (reachable_valid _ _ _ _ Hreach) as [(ra & Hra & Hina) (rg & Hrg & Hing)].
  destruct (ACCEL_SCALE_MAP_lookup ra Hina) as (da & Hda & _).
  destruct (GYRO_SCALE_MAP_lookup rg Hing) as (dg & Hdg & _).
  exists ra, rg, da, dg. unfold dict_get. rewrite Hda, Hdg. auto 10.
Qed.

Lemma range_invariant_witness :
  exists ra rg da dg,
    let self :=
      after acos_at_0_1 pow_by_mul (steady (words [])) (Call_set_accel_range "8g")
        (after acos_at_0_1 pow_by_mul (steady (words [])) (Call_set_gyro_range "3g")
           (snd (init (steady (words [])) 0x68))) in
    accel_range self = Some ra /\ ra ∈ accel_ranges /\
    gyro_range self = Some rg /\ rg ∈ gyro_ranges /\
    dict_get VFloat ACCEL_SCALE_MAP ra = VFloat da /\
    dict_get VFloat GYRO_SCALE_MAP rg = VFloat dg.
Proof.
  apply (range_invariant acos_at_0_1 pow_by_mul (steady (words []))).
  apply reachable_call, reachable_call, reachable_init. reflexivity.
Defined.

(** ** The tilt angle *)

(** C1, as the code has it.  [calculate_angle] raises [ZeroDivisionError]
    on a vector of zero magnitude, floats or ints: the quotient
    [y / sqrt(0)] is not among the exceptions its [except] clause names.
    Such a vector is what [get_accel_data] returns when the three
    acceleration words read 0. *)
Theorem calculate_angle_zero_magnitude_raises (libm_acos : float -> float)
    (libm_pow : float -> float -> float) (self : mpu6050) :
  calculate_angle libm_acos libm_pow (Vector (VFloat 0) (VFloat 0) (VFloat 0)) self
    = (Raise ZeroDivisionError, self) /\
  calculate_angle libm_acos libm_pow (Vector (VInt 0) (VInt 0) (VInt 0)) self
    = (Raise ZeroDivisionError, self) /\
  fst (get_accel_data (steady (words [])) sensor)
    = Return (Vector (VFloat 0) (VFloat 0) (VFloat 0)).
Proof.
  split; [reflexivity|]. split; [reflexivity|]. vm_compute. reflexivity.
Qed.

Lemma obind_raises {A B} (P : exn -> Prop) (o : outcome A) (k : A -> outcome B) :
  (forall e, o = Raise e -> P e) -> (forall a e, k a = Raise e -> P e) ->
  forall e, obind o k = Raise e -> P e.
Proof.
  intros Ho Hk e. destruct o as [a|e']; simpl; intros H;
    [exact (Hk _ _ H) | injection H as <-; by apply Ho].
Qed.

Lemma float_of_int_raises (n : Z) (e : exn) :
  Py.float_of_int n = Raise e -> e = OverflowError.
Proof.
  unfold Py.float_of_int. destruct (is_infinity _); congruence.
Qed.

Lemma as_float_raises (v : value) (e : exn) :
  Py.as_float v = Raise e -> arithmetic e.
Proof.
  unfold arithmetic. destruct v as [|n|f]; simpl; [| |discriminate 1].
  - intros [= <-]. auto.
  - intros H%float_of_int_raises. auto.
Qed.

Lemma coerce_raises (v w : value) (e : exn) :
  Py.coerce v w = Raise e -> arithmetic e.
Proof.
  unfold arithmetic.
  destruct v as [|m|a], w as [|n|b]; simpl; try (intros [= <-]; by auto);
    try discriminate 1.
  - destruct (Py.float_of_int m) eqn:E; simpl; [discriminate 1|].
    intros [= <-]. apply float_of_int_raises in E. auto.
  - destruct (Py.float_of_int n) eqn:E; simpl; [discriminate 1|].
    intros [= <-]. apply float_of_int_raises in E. auto.
Qed.

Lemma add_raises (v w : value) (e : exn) : Py.add v w = Raise e -> arithmetic e.
Proof.
  unfold Py.add. apply obind_raises; [apply coerce_raises|].
  intros [m n|a b] e'; discriminate 1.
Qed.

Lemma mul_raises (v w : value) (e : exn) : Py.mul v w = Raise e -> arithmetic e.
Proof.
  unfold Py.mul. apply obind_raises; [apply coerce_raises|].
  intros [m n|a b] e'; discriminate 1.
Qed.

Lemma float_div_raises (a b : float) (e : exn) :
  Py.float_div a b = Raise e -> arithmetic e.
Proof.
  unfold Py.float_div, arithmetic. destruct (b =? 0)%float; [|discriminate 1].
  intros [= <-]. auto.
Qed.

Lemma truediv_raises (v w : value) (e : exn) :
  Py.truediv v w = Raise e -> arithmetic e.
Proof.
  unfold Py.truediv. apply obind_raises; [apply coerce_raises|].
  intros [m n|a b] e'; [|apply float_div_raises].
  destruct (n =? 0).
  - unfold arithmetic. intros [= <-]. auto.
  - apply obind_raises.
    + intros e2 H%float_of_int_raises. unfold arithmetic. auto.
    + intros a e2. apply obind_raises; [|intros b; apply float_div_raises].
      intros e3 H%float_of_int_raises. unfold arithmetic. auto.
Qed.

Lemma math_1_raises (func : float -> float) (v : value) (e : exn) :
  Py.math_1 func v = Raise e -> arithmetic e.
Proof.
  unfold Py.math_1. apply obind_raises; [apply as_float_raises|].
  intros a e'. unfold arithmetic.
  destruct (is_nan (func a) && negb (is_nan a))%bool; [intros [= <-]; auto|].
  destruct (is_infinity (func a) && is_finite a)%bool; [intros [= <-]; auto|].
  discriminate 1.
Qed.

Lemma pow2_raises (libm_pow : float -> float -> float) (v : value) (e : exn) :
  Py.pow2 libm_pow v = Raise e -> arithmetic e.
Proof.
  unfold arithmetic. destruct v as [|n|f]; simpl; [| discriminate 1 |].
  - intros [= <-]. auto.
  - unfold Py.float_pow2.
    repeat (match goal with |- context [if ?c then _ else _] => destruct c end;
            try discriminate 1).
    intros [= <-]. auto.
Qed.

Lemma angle_expr_raises (libm_acos : float -> float)
    (libm_pow : float -> float -> float) (xyz : vector) (e : exn) :
  angle_expr libm_acos libm_pow xyz = Raise e -> arithmetic e.
Proof.
  unfold angle_expr.
  repeat (apply obind_raises;
          [first [apply pow2_raises | apply add_raises | apply truediv_raises
                 | apply (math_1_raises PrimFloat.sqrt) | apply (math_1_raises libm_acos)
                 | apply mul_raises] | intros ? ?]).
  apply truediv_raises.
Qed.

(** [calculate_angle] leaves the instance as it was, whether it returns or
    raises, and raises nothing but [ZeroDivisionError] and [OverflowError],
    whatever the three values. *)
Theorem calculate_angle_raises_only (libm_acos : float -> float)
    (libm_pow : float -> float -> float) (xyz : vector) (self : mpu6050) :
  snd (calculate_angle libm_acos libm_pow xyz self) = self /\
  forall e,
    fst (calculate_angle libm_acos libm_pow xyz self) = Raise e ->
    e = ZeroDivisionError \/ e = OverflowError.
Proof.
  split; [reflexivity|]. intros e.
  unfold calculate_angle, lift, try_except. simpl.
  destruct (angle_expr libm_acos libm_pow xyz) as [a|e'] eqn:E; [discriminate 1|].
  apply angle_expr_raises in E.
  destruct E as [-> | [-> | [-> | ->]]]; simpl; intros [= <-]; auto.
Qed.

Lemma calculate_angle_raises_only_witness :
  snd (calculate_angle acos_at_0_1 pow_by_mul (Vector (VFloat 0) (VFloat 0) (VFloat 0)) sensor)
    = sensor /\
  (ZeroDivisionError = ZeroDivisionError \/ ZeroDivisionError = OverflowError).
Proof.
  destruct (calculate_angle_raises_only acos_at_0_1 pow_by_mul
              (Vector (VFloat 0) (VFloat 0) (VFloat 0)) sensor) as [Hstate Hraise].
  split; [exact Hstate|]. apply (Hraise ZeroDivisionError). reflexivity.
Defined.

(** Three ints whose squares sum beyond the floats make [calculate_angle]
    raise [OverflowError], from the conversion [math.sqrt] applies to its
    argument. *)
Theorem calculate_angle_int_overflow (libm_acos : float -> float)
    (libm_pow : float -> float -> float) (xi yi zi : Z) (self : mpu6050) :
  fits (xi ^ 2 + yi ^ 2 + zi ^ 2) = false ->
  calculate_angle libm_acos libm_pow (Vector (VInt xi) (VInt yi) (VInt zi)) self
    = (Raise OverflowError, self).
Proof.
  intros Hfit. unfold fits in Hfit. apply negb_false_iff in Hfit.
  unfold calculate_angle, lift, angle_expr. simpl.
  unfold Py.math_sqrt, Py.math_1. simpl. unfold Py.float_of_int.
  by rewrite Hfit.
Qed.

Lemma calculate_angle_int_overflow_witness :
  calculate_angle acos_at_0_1 pow_by_mul
    (Vector (VInt (10 ^ 200)) (VInt 0) (VInt 0)) sensor = (Raise OverflowError, sensor).
Proof.
  apply (calculate_angle_int_overflow acos_at_0_1 pow_by_mul (10 ^ 200) 0 0 sensor).
  vm_compute. reflexivity.
Defined.

(** A record whose [x] is [None] gives the angle [None]. *)
Lemma calculate_angle_x_None (libm_acos : float -> float)
    (libm_pow : float -> float -> float) (b c : value) (self : mpu6050) :
  calculate_angle libm_acos libm_pow (Vector VNone b c) self = (Return VNone, self).
Proof. reflexivity. Qed.

(** When one of the three word reads of [get_accel_data] fails,
    [calculate_angle] applied to the record it returned gives [None]. *)
Theorem failed_read_angle_None (libm_acos : float -> float)
    (libm_pow : float -> float -> float) (dev : device) (self self' : mpu6050)
    (a b c : value) :
  byte_device dev -> valid self ->
  comprehension (read_i2c_word dev) [ACCEL_XOUTH; ACCEL_YOUTH; ACCEL_ZOUTH] self
    = (Return [a; b; c], self') ->
  VNone ∈ [a; b; c] ->
  (xyz <- get_accel_data dev ;; calculate_angle libm_acos libm_pow xyz)%method self
    = (Return VNone, self').
Proof.
  intros Hdev [(ra & Hra & Hina) _] Hreads Hnone.
  destruct (three_words dev [ACCEL_XOUTH; ACCEL_YOUTH; ACCEL_ZOUTH] self Hdev eq_refl)
    as (a' & b' & c' & self1 & Hreads1 & Ha & Hb & Hc & Hacc & _).
  rewrite Hreads in Hreads1. simplify_eq.
  destruct (ACCEL_SCALE_MAP_lookup ra Hina) as (d & Hd & Hnz & _).
  rewrite Hra in Hacc.
  unfold bind.
  rewrite (get_accel_data_after_reads dev self self1 ra d _ _ _
             Hreads Hacc Hd Hnz Ha Hb Hc).
  destruct (converted_all_or_nothing
              (fun w => Py.round_int w / d * GRAVITIY_MS2)%float _ _ _ Ha Hb Hc)
    as [Hall _].
  rewrite (Hall Hnone). reflexivity.
Qed.

Lemma failed_read_angle_None_witness :
  (xyz <- get_accel_data (glitch 4 (steady (words [(0x3B, 16384)]))) ;;
   calculate_angle acos_at_0_1 pow_by_mul xyz)%method sensor
    = (Return VNone,
       Mpu6050 0x68
         [ReadByte 0x68 0x3B; ReadByte 0x68 0x3C; ReadByte 0x68 0x3D;
          ReadByte 0x68 0x3E; ReadByte 0x68 0x3F]
         (Some "2g") (Some "250deg")).
Proof.
  apply (failed_read_angle_None acos_at_0_1 pow_by_mul
           (glitch 4 (steady (words [(0x3B, 16384)]))) sensor _
           (VInt 16384) (VInt 0) VNone
           (byte_device_glitch 4 _ (byte_device_steady _)) valid_sensor).
  - reflexivity.
  - apply list_elem_of_further, list_elem_of_further, list_elem_of_here.
Defined.

(** ** Construction *)

(** Once the bus is open, [__init__] issues its five writes in order and
    stops at the first one the bus fails.  When none fails it returns with
    the five writes in the history and the ranges '4g' and '500deg'.  When
    the write of index [n] is the first to fail it raises [OSError]; the
    history is the writes up to that one, none following it; [accel_range]
    is '4g' if its two writes had succeeded and unassigned otherwise, and
    [gyro_range] is unassigned. *)
Theorem init_stops_at_first_failed_write (dev : device) (a : Z) :
  init dev a =
    match first_failure dev [] (init_writes a) with
    | None => (Return tt, Mpu6050 a (init_writes a) (Some "4g") (Some "500deg"))
    | Some n =>
        (Raise OSError,
         Mpu6050 a (take (S n) (init_writes a))
           (if (3 <=? n)%nat then Some "4g" else None) None)
    end.
Proof.
  rewrite init_unfold. cbv zeta.
  unfold init_writes, PWR_MGMT_1, ACCEL_CONFIG, GYRO_CONFIG, ACCEL_RANGE_4G,
    GYRO_RANGE_500DEG.
  cbn [first_failure accepts app].
  repeat match goal with
         | |- context [if answer_write ?d ?h ?x ?r ?v then _ else _] =>
             destruct (answer_write d h x r v); cbn [option_map fmap option_fmap]
         end;
    reflexivity.
Qed.

(** The bus failing the fourth write: [accel_range] is assigned,
    [gyro_range] is not, and the fifth write is not issued. *)
Lemma init_fourth_write_fails :
  init (glitch 3 (steady (words []))) 0x68 =
    (Raise OSError,
     Mpu6050 0x68
       [WriteByte 0x68 0x6B 0x00; WriteByte 0x68 0x1C 0x00; WriteByte 0x68 0x1C 0x08;
        WriteByte 0x68 0x1B 0x00]
       (Some "4g") None).
Proof. reflexivity. Qed.

(** ** Words, again *)

(** [combine] undoes the big-endian two's complement encoding, and back:
    the bytes of a signed 16-bit [w] combine to [w], and the word two bytes
    combine to has those bytes. *)
Theorem combine_round_trip (w high low : Z) :
  -32768 <= w <= 32767 -> 0 <= high <= 255 -> 0 <= low <= 255 ->
  combine ((w mod 65536) / 256) ((w mod 65536) mod 256) = w /\
  (combine high low mod 65536) / 256 = high /\
  (combine high low mod 65536) mod 256 = low.
Proof.
  intros Hw Hh Hl. split.
  - rewrite combine_signed by (Z.div_mod_to_equations; lia).
    destruct (Z.ltb_spec ((w mod 65536) / 256 * 256 + (w mod 65536) mod 256) 0x8000);
      Z.div_mod_to_equations; lia.
  - rewrite combine_signed by assumption.
    destruct (Z.ltb_spec (high * 256 + low) 0x8000); Z.div_mod_to_equations; lia.
Qed.

Lemma combine_round_trip_witness :
  combine ((-2 mod 65536) / 256) ((-2 mod 65536) mod 256) = -2 /\
  (combine 0xFF 0xFE mod 65536) / 256 = 0xFF /\
  (combine 0xFF 0xFE mod 65536) mod 256 = 0xFE.
Proof. apply (combine_round_trip (-2) 0xFF 0xFE); lia. Defined.

(** Whatever a device of bytes answers, [read_i2c_word] raises nothing and
    returns [None] or an int from -32768 to 32767. *)
Theorem read_i2c_word_range (dev : device) (register : Z) (self : mpu6050) :
  byte_device dev ->
  fst (read_i2c_word dev register self) = Return VNone \/
  exists w, fst (read_i2c_word dev register self) = Return (VInt w) /\
            -32768 <= w <= 32767.
Proof.
  intros Hdev.
  destruct (read_i2c_word_is_word dev register self Hdev) as (v & Hv & [->|(w & -> & Hw)]);
    [by left | right; by exists w].
Qed.

Lemma read_i2c_word_range_witness :
  fst (read_i2c_word (steady (words [(0x43, 0xFFFE)])) 0x43 sensor) = Return VNone \/
  exists w, fst (read_i2c_word (steady (words [(0x43, 0xFFFE)])) 0x43 sensor)
              = Return (VInt w) /\ -32768 <= w <= 32767.
Proof.
  apply (read_i2c_word_range (steady (words [(0x43, 0xFFFE)])) 0x43 sensor).
  apply byte_device_steady.
Defined.

(** ** Temperature, again *)

(** On a device of bytes, [get_temp] returns a float, [raw / 340.0 + 36.53]
    for a signed 16-bit [raw], or raises [TypeError], which it does exactly
    when the word read returned [None]: it never returns [None]. *)
Theorem get_temp_float_or_TypeError (dev : device) (self : mpu6050) :
  byte_device dev ->
  (exists raw, -32768 <= raw <= 32767 /\
     fst (read_i2c_word dev TEMP_OUTH self) = Return (VInt raw) /\
     fst (get_temp dev self) = Return (VFloat (Py.round_int raw / 340.0 + 36.53))) \/
  (fst (read_i2c_word dev TEMP_OUTH self) = Return VNone /\
   fst (get_temp dev self) = Raise TypeError).
Proof.
  intros Hdev. rewrite get_temp_unfold.
  destruct (read_i2c_word_is_word dev TEMP_OUTH self Hdev) as (v & Hv & Hword).
  destruct (read_i2c_word dev TEMP_OUTH self) as [o self']. simpl in Hv. subst o.
  destruct Hword as [->|(raw & -> & Hraw)].
  - right. by split.
  - left. exists raw. rewrite truediv_word by done.
    split; [exact Hraw|]. split; reflexivity.
Qed.

Lemma get_temp_float_or_TypeError_witness :
  (exists raw, -32768 <= raw <= 32767 /\
     fst (read_i2c_word (glitch 1 (steady (words [(0x41, 340)]))) TEMP_OUTH sensor)
       = Return (VInt raw) /\
     fst (get_temp (glitch 1 (steady (words [(0x41, 340)]))) sensor)
       = Return (VFloat (Py.round_int raw / 340.0 + 36.53))) \/
  (fst (read_i2c_word (glitch 1 (steady (words [(0x41, 340)]))) TEMP_OUTH sensor)
     = Return VNone /\
   fst (get_temp (glitch 1 (steady (words [(0x41, 340)]))) sensor) = Raise TypeError).
Proof.
  apply (get_temp_float_or_TypeError (glitch 1 (steady (words [(0x41, 340)]))) sensor).
  apply byte_device_glitch, byte_device_steady.
Defined.

(** ** The range setters, again *)

(** A setter touches nothing but its own attribute and its own config
    register: the address and the other range are as they were, and the
    history grows by at most two transactions, each a write to that
    register. *)
Theorem setters_frame (dev : device) (r : string) (self : mpu6050) :
  (address (snd (set_accel_range dev r self)) = address self /\
   gyro_range (snd (set_accel_range dev r self)) = gyro_range self /\
   exists ws, bus (snd (set_accel_range dev r self)) = bus self ++ ws /\
              (length ws <= 2)%nat /\
              Forall (is_write (address self) ACCEL_CONFIG) ws) /\
  (address (snd (set_gyro_range dev r self)) = address self /\
   accel_range (snd (set_gyro_range dev r self)) = accel_range self /\
   exists ws, bus (snd (set_gyro_range dev r self)) = bus self ++ ws /\
              (length ws <= 2)%nat /\
              Forall (is_write (address self) GYRO_CONFIG) ws).
Proof.
  split.
  - destruct (ACCEL_RANGE_MAP !! r) as [code|] eqn:Hcode.
    + rewrite (set_accel_range_unfold dev r code) by assumption. cbv zeta.
      repeat match goal with |- context [if ?c then _ else _] => destruct c end;
        (split; [reflexivity|]; split; [reflexivity|]; eexists;
         split; [reflexivity|]; split; [simpl; lia|]);
        repeat constructor; by eexists.
    + unfold set_accel_range. rewrite Hcode. simpl.
      split; [reflexivity|]. split; [reflexivity|]. exists [].
      rewrite app_nil_r. split; [reflexivity|]. split; [simpl; lia | constructor].
  - destruct (GYRO_RANGE_MAP !! r) as [code|] eqn:Hcode.
    + rewrite (set_gyro_range_unfold dev r code) by assumption. cbv zeta.
      repeat match goal with |- context [if ?c then _ else _] => destruct c end;
        (split; [reflexivity|]; split; [reflexivity|]; eexists;
         split; [reflexivity|]; split; [simpl; lia|]);
        repeat constructor; by eexists.
    + unfold set_gyro_range. rewrite Hcode. simpl.
      split; [reflexivity|]. split; [reflexivity|]. exists [].
      rewrite app_nil_r. split; [reflexivity|]. split; [simpl; lia | constructor].
Qed.

(** ** The vector reads, again *)

Lemma gyro_131_at_250deg : (Py.round_int 131 / 131.0)%float = 1%float.
Proof. vm_compute. reflexivity. Qed.

Lemma gyro_minus_262_at_250deg : (Py.round_int (-262) / 131.0)%float = (-2)%float.
Proof. vm_compute. reflexivity. Qed.

Lemma gyro_0_at_250deg : (Py.round_int 0 / 131.0)%float = 0%float.
Proof. vm_compute. reflexivity. Qed.

(** When the three word reads return the ints [xr], [yr], [zr],
    [get_gyro_data] returns [raw / d] for each, where [d] is the divisor of
    the current range: 131.0 for 250deg, 65.5 for 500deg, 32.8 for 1000deg,
    16.4 for 2000deg; gravity plays no part. *)
Theorem get_gyro_data_conversion (dev : device) (self self' : mpu6050)
    (r : string) (xr yr zr : Z) :
  byte_device dev ->
  gyro_range self = Some r -> r ∈ gyro_ranges ->
  comprehension (read_i2c_word dev) [GYRO_XOUTH; GYRO_YOUTH; GYRO_ZOUTH] self
    = (Return [VInt xr; VInt yr; VInt zr], self') ->
  exists d,
    GYRO_SCALE_MAP !! r = Some d /\
    (r = "250deg" -> d = 131.0%float) /\ (r = "500deg" -> d = 65.5%float) /\
    (r = "1000deg" -> d = 32.8%float) /\ (r = "2000deg" -> d = 16.4%float) /\
    get_gyro_data dev self =
      (Return (Vector (VFloat (Py.round_int xr / d))
                      (VFloat (Py.round_int yr / d))
                      (VFloat (Py.round_int zr / d))), self').
Proof.
  intros Hdev Hr Hin Hreads.
  destruct (three_words dev [GYRO_XOUTH; GYRO_YOUTH; GYRO_ZOUTH] self Hdev eq_refl)
    as (a & b & c & self1 & Hreads1 & Ha & Hb & Hc & _ & Hgyr).
  rewrite Hreads in Hreads1. simplify_eq.
  destruct (GYRO_SCALE_MAP_lookup r Hin) as (d & Hd & Hnz & H250 & H500 & H1000 & H2000).
  rewrite Hr in Hgyr.
  pose proof (get_gyro_data_after_reads dev self self1 r d _ _ _
                Hreads Hgyr Hd Hnz Ha Hb Hc) as Hget.
  exists d. by repeat (split; [assumption|]).
Qed.

Lemma get_gyro_data_conversion_witness :
  get_gyro_data (steady (words [(0x43, 131); (0x45, 0xFEFA)])) sensor =
    (Return (Vector (VFloat 1) (VFloat (-2)) (VFloat 0)),
     Mpu6050 0x68
       [ReadByte 0x68 0x43; ReadByte 0x68 0x44; ReadByte 0x68 0x45;
        ReadByte 0x68 0x46; ReadByte 0x68 0x47; ReadByte 0x68 0x48]
       (Some "2g") (Some "250deg")).
Proof.
  destruct (get_gyro_data_conversion (steady (words [(0x43, 131); (0x45, 0xFEFA)])) sensor
              (Mpu6050 0x68
                 [ReadByte 0x68 0x43; ReadByte 0x68 0x44; ReadByte 0x68 0x45;
                  ReadByte 0x68 0x46; ReadByte 0x68 0x47; ReadByte 0x68 0x48]
                 (Some "2g") (Some "250deg"))
              "250deg" 131 (-262) 0 (byte_device_steady _) eq_refl
              (list_elem_of_here _ _) eq_refl)
    as (d & _ & H250 & _ & _ & _ & Hget).
  rewrite Hget, (H250 eq_refl).
  by rewrite gyro_131_at_250deg, gyro_minus_262_at_250deg, gyro_0_at_250deg.
Defined.

(** *** What the conversion leaves alone *)

Lemma stateless_ret {A} (a : A) : stateless (ret a).
Proof. by intros self. Qed.

Lemma stateless_raise {A} (e : exn) : stateless (@raise A e).
Proof. by intros self. Qed.

Lemma stateless_lift {A} (o : outcome A) : stateless (lift o).
Proof. by intros self. Qed.

Lemma stateless_bind {A B} (m : M A) (k : A -> M B) :
  stateless m -> (forall a, stateless (k a)) -> stateless (bind m k).
Proof.
  intros Hm Hk self. unfold bind. specialize (Hm self).
  destruct (m self) as [[a|e] self1]; simpl in Hm; subst self1; [apply Hk | reflexivity].
Qed.

Lemma stateless_attempt {A} (m : M A) : stateless m -> stateless (attempt m).
Proof.
  intros Hm self. unfold attempt. specialize (Hm self).
  destruct (m self) as [o self1]. exact Hm.
Qed.

Lemma stateless_comprehension {A B} (f : A -> M B) (l : list A) :
  (forall i, stateless (f i)) -> stateless (comprehension f l).
Proof.
  intros Hf. induction l as [|i l IH]; simpl.
  - apply stateless_ret.
  - apply stateless_bind; [apply Hf|]. intros b.
    apply stateless_bind; [exact IH|]. intros bs. apply stateless_ret.
Qed.

Lemma stateless_accel_convert (i : value) : stateless (accel_convert i).
Proof.
  unfold accel_convert. apply stateless_bind.
  - intros self. unfold self_accel_range. by destruct (accel_range self).
  - intros r. apply stateless_bind; [apply stateless_lift|].
    intros q. apply stateless_lift.
Qed.

Lemma stateless_gyro_convert (i : value) : stateless (gyro_convert i).
Proof.
  unfold gyro_convert. apply stateless_bind.
  - intros self. unfold self_gyro_range. by destruct (gyro_range self).
  - intros r. apply stateless_lift.
Qed.

Lemma stateless_except_TypeError (o : outcome (list value)) :
  stateless (except_TypeError o).
Proof. intros self. by destruct o as [l|[]]. Qed.

Lemma stateless_as_dict (xyz : list value) : stateless (as_dict xyz).
Proof. intros self. by destruct xyz as [|a [|b [|c xyz]]]. Qed.

Lemma snd_bind_stateless {A B} (m : M A) (k : A -> M B) (self : mpu6050) :
  (forall a, stateless (k a)) -> snd (bind m k self) = snd (m self).
Proof.
  intros Hk. unfold bind. destruct (m self) as [[a|e] self1]; [apply Hk | reflexivity].
Qed.

(** The instance after a vector read is the one its word reads left. *)
Lemma get_accel_data_state (dev : device) (self : mpu6050) :
  snd (get_accel_data dev self) =
  snd (comprehension (read_i2c_word dev) [ACCEL_XOUTH; ACCEL_YOUTH; ACCEL_ZOUTH] self).
Proof.
  unfold get_accel_data. apply snd_bind_stateless. intros xyz.
  apply stateless_bind;
    [apply stateless_attempt, stateless_comprehension, stateless_accel_convert|].
  intros o. apply stateless_bind; [apply stateless_except_TypeError|].
  intros xyz'. apply stateless_as_dict.
Qed.

Lemma get_gyro_data_state (dev : device) (self : mpu6050) :
  snd (get_gyro_data dev self) =
  snd (comprehension (read_i2c_word dev) [GYRO_XOUTH; GYRO_YOUTH; GYRO_ZOUTH] self).
Proof.
  unfold get_gyro_data. apply snd_bind_stateless. intros xyz.
  apply stateless_bind;
    [apply stateless_attempt, stateless_comprehension, stateless_gyro_convert|].
  intros o. apply stateless_bind; [apply stateless_except_TypeError|].
  intros xyz'. apply stateless_as_dict.
Qed.

(** A word read returns, whatever the device answers. *)
Lemma read_i2c_word_returns (dev : device) (register : Z) (self : mpu6050) :
  exists v, fst (read_i2c_word dev register self) = Return v /\
            (v = VNone \/ exists w, v = VInt w).
Proof.
  rewrite read_i2c_word_unfold. cbv zeta.
  destruct (answer_read dev (bus self) (address self) register); [|eauto].
  destruct (answer_read dev _ (address self) (register + 1)); simpl; eauto.
Qed.

(** The history after a word read: one read, or the two. *)
Lemma read_i2c_word_bus (dev : device) (register : Z) (self : mpu6050) :
  let a := address self in
  address (snd (read_i2c_word dev register self)) = a /\
  (bus (snd (read_i2c_word dev register self)) = bus self ++ [ReadByte a register] \/
   bus (snd (read_i2c_word dev register self)) =
     bus self ++ [ReadByte a register; ReadByte a (register + 1)]).
Proof.
  rewrite read_i2c_word_unfold. cbv zeta.
  destruct (answer_read dev (bus self) (address self) register); [|simpl; auto].
  destruct (answer_read dev _ (address self) (register + 1)); simpl;
    rewrite <- app_assoc; auto.
Qed.

Lemma comprehension_three_reads (dev : device) (r1 r2 r3 : Z) (self : mpu6050) :
  let self1 := snd (read_i2c_word dev r1 self) in
  let self2 := snd (read_i2c_word dev r2 self1) in
  let self3 := snd (read_i2c_word dev r3 self2) in
  exists a b c,
    comprehension (read_i2c_word dev) [r1; r2; r3] self = (Return [a; b; c], self3) /\
    fst (read_i2c_word dev r1 self) = Return a /\
    fst (read_i2c_word dev r2 self1) = Return b /\
    fst (read_i2c_word dev r3 self2) = Return c.
Proof.
  cbv zeta. simpl. unfold bind, ret.
  destruct (read_i2c_word_returns dev r1 self) as (a & Ha & _).
  destruct (read_i2c_word dev r1 self) as [o1 self1]. simpl in Ha |- *. subst o1.
  destruct (read_i2c_word_returns dev r2 self1) as (b & Hb & _).
  destruct (read_i2c_word dev r2 self1) as [o2 self2]. simpl in Hb |- *. subst o2.
  destruct (read_i2c_word_returns dev r3 self2) as (c & Hc & _).
  destruct (read_i2c_word dev r3 self2) as [o3 self3]. simpl in Hc |- *. subst o3.
  by exists a, b, c.
Qed.

Lemma three_reads_bus (dev : device) (r1 r2 r3 : Z) (lo hi : Z) (self : mpu6050) :
  lo <= r1 -> r1 + 1 <= hi -> lo <= r2 -> r2 + 1 <= hi -> lo <= r3 -> r3 + 1 <= hi ->
  let a := address self in
  exists rs,
    bus (snd (comprehension (read_i2c_word dev) [r1; r2; r3] self)) = bus self ++ rs /\
    (3 <= length rs <= 6)%nat /\
    Forall (is_read a lo hi) rs /\
    [ReadByte a r1; ReadByte a r2; ReadByte a r3] `sublist_of` rs.
Proof.
  intros H1 H1' H2 H2' H3 H3'. cbv zeta.
  destruct (comprehension_three_reads dev r1 r2 r3 self) as (a & b & c & -> & _).
  cbn [snd].
  destruct (read_i2c_word_bus dev r1 self) as [A1 B1].
  destruct (read_i2c_word_bus dev r2 (snd (read_i2c_word dev r1 self))) as [A2 B2].
  destruct (read_i2c_word_bus dev r3
              (snd (read_i2c_word dev r2 (snd (read_i2c_word dev r1 self))))) as [A3 B3].
  rewrite A2, A1 in B3. rewrite A1 in B2.
  destruct B1 as [B1|B1], B2 as [B2|B2], B3 as [B3|B3];
    rewrite B3, B2, B1, <- !app_assoc; simpl;
    (eexists; split; [reflexivity|]; split; [simpl; lia|]; split;
     [repeat constructor; eexists; (split; [reflexivity | lia])
     |repeat first [apply sublist_nil | apply sublist_skip | apply sublist_cons]]).
Qed.

(** A vector read attempts its three axes whatever fails: the history
    grows by three to six transactions, all of them reads of the block of
    registers of the sensor read, with the reads of the three high bytes
    among them in order; nothing is written. *)
Theorem vector_reads_attempt_all_axes (dev : device) (self : mpu6050) :
  let a := address self in
  (exists rs,
     bus (snd (get_accel_data dev self)) = bus self ++ rs /\
     (3 <= length rs <= 6)%nat /\
     Forall (is_read a 0x3B 0x40) rs /\
     [ReadByte a 0x3B; ReadByte a 0x3D; ReadByte a 0x3F] `sublist_of` rs) /\
  (exists rs,
     bus (snd (get_gyro_data dev self)) = bus self ++ rs /\
     (3 <= length rs <= 6)%nat /\
     Forall (is_read a 0x43 0x48) rs /\
     [ReadByte a 0x43; ReadByte a 0x45; ReadByte a 0x47] `sublist_of` rs).
Proof.
  cbv zeta. rewrite get_accel_data_state, get_gyro_data_state. split.
  - apply (three_reads_bus dev 0x3B 0x3D 0x3F 0x3B 0x40); lia.
  - apply (three_reads_bus dev 0x43 0x45 0x47 0x43 0x48); lia.
Qed.

(** *** A stored range the scale map does not know *)

Lemma ACCEL_SCALE_MAP_None (r : string) :
  r ∉ accel_ranges -> ACCEL_SCALE_MAP !! r = None.
Proof. intros Hr. unfold ACCEL_SCALE_MAP. by apply not_elem_of_list_to_map. Qed.

Lemma GYRO_SCALE_MAP_None (r : string) :
  r ∉ gyro_ranges -> GYRO_SCALE_MAP !! r = None.
Proof. intros Hr. unfold GYRO_SCALE_MAP. by apply not_elem_of_list_to_map. Qed.

(** With a stored range that is not a key of the scale map (a client can
    assign the attribute directly), a vector read returns three [None],
    even when the three word reads succeed: the [TypeError] of the division
    by the missing divisor is taken for a failed read. *)
Theorem unknown_range_all_None (dev : device) (self : mpu6050) (r : string) :
  (accel_range self = Some r -> r ∉ accel_ranges ->
   fst (get_accel_data dev self) = Return (Vector VNone VNone VNone)) /\
  (gyro_range self = Some r -> r ∉ gyro_ranges ->
   fst (get_gyro_data dev self) = Return (Vector VNone VNone VNone)).
Proof.
  split; intros Hr Hnotin.
  - destruct (comprehension_three_reads dev ACCEL_XOUTH ACCEL_YOUTH ACCEL_ZOUTH self)
      as (a & b & c & Hreads & _).
    unfold get_accel_data. unfold bind at 1. rewrite Hreads. cbv zeta.
    pose proof (keeps_attrs_comprehension (read_i2c_word dev)
                  [ACCEL_XOUTH; ACCEL_YOUTH; ACCEL_ZOUTH]
                  (keeps_attrs_read_i2c_word dev) self) as (_ & Hacc & _).
    rewrite Hreads in Hacc. simpl in Hacc. rewrite Hr in Hacc.
    simpl comprehension. unfold bind, attempt, accel_convert at 1, bind,
      self_accel_range, lift, dict_get.
    rewrite Hacc, (ACCEL_SCALE_MAP_None r Hnotin). simpl.
    by destruct a.
  - destruct (comprehension_three_reads dev GYRO_XOUTH GYRO_YOUTH GYRO_ZOUTH self)
      as (a & b & c & Hreads & _).
    unfold get_gyro_data. unfold bind at 1. rewrite Hreads. cbv zeta.
    pose proof (keeps_attrs_comprehension (read_i2c_word dev)
                  [GYRO_XOUTH; GYRO_YOUTH; GYRO_ZOUTH]
                  (keeps_attrs_read_i2c_word dev) self) as (_ & _ & Hgyr).
    rewrite Hreads in Hgyr. simpl in Hgyr. rewrite Hr in Hgyr.
    simpl comprehension. unfold bind, attempt, gyro_convert at 1, bind,
      self_gyro_range, lift, dict_get.
    rewrite Hgyr, (GYRO_SCALE_MAP_None r Hnotin). simpl.
    by destruct a.
Qed.

Lemma unknown_range_all_None_witness :
  fst (get_accel_data (steady (words [(0x3B, 16384)]))
         (Mpu6050 0x68 [] (Some "3g") (Some "3g")))
    = Return (Vector VNone VNone VNone) /\
  fst (get_gyro_data (steady (words [(0x43, 131)]))
         (Mpu6050 0x68 [] (Some "3g") (Some "3g")))
    = Return (Vector VNone VNone VNone).
Proof.
  destruct (unknown_range_all_None (steady (words [(0x3B, 16384)]))
              (Mpu6050 0x68 [] (Some "3g") (Some "3g")) "3g") as [Ha _].
  destruct (unknown_range_all_None (steady (words [(0x43, 131)]))
              (Mpu6050 0x68 [] (Some "3g") (Some "3g")) "3g") as [_ Hg].
  split; [apply Ha | apply Hg]; try reflexivity;
    unfold accel_ranges, gyro_ranges; apply (bool_decide_unpack _); vm_compute; reflexivity.
Defined.

(** ** Setting a range, then reading *)

Lemma set_accel_range_returns (dev : device) (r : string) (self self1 : mpu6050) :
  set_accel_range dev r self = (Return tt, self1) ->
  accel_range self1 = Some r /\ r ∈ accel_ranges /\ gyro_range self1 = gyro_range self.
Proof.
  destruct (ACCEL_RANGE_MAP !! r) as [code|] eqn:Hcode.
  - rewrite (set_accel_range_unfold dev r code) by assumption. cbv zeta.
    apply ACCEL_RANGE_MAP_Some in Hcode.
    repeat match goal with |- context [if ?c then _ else _] => destruct c end;
      intros [= <-]; auto.
  - unfold set_accel_range. rewrite Hcode. discriminate 1.
Qed.

Lemma set_gyro_range_returns (dev : device) (r : string) (self self1 : mpu6050) :
  set_gyro_range dev r self = (Return tt, self1) ->
  gyro_range self1 = Some r /\ r ∈ gyro_ranges /\ accel_range self1 = accel_range self.
Proof.
  destruct (GYRO_RANGE_MAP !! r) as [code|] eqn:Hcode.
  - rewrite (set_gyro_range_unfold dev r code) by assumption. cbv zeta.
    apply GYRO_RANGE_MAP_Some in Hcode.
    repeat match goal with |- context [if ?c then _ else _] => destruct c end;
      intros [= <-]; auto.
  - unfold set_gyro_range. rewrite Hcode. discriminate 1.
Qed.

(** After a setter returned, the vector read of its sensor divides by the
    divisor of the range just set: [ACCEL_SCALE_MAP[r]] after
    [set_accel_range(r)], [GYRO_SCALE_MAP[r]] after [set_gyro_range(r)]. *)
Theorem set_range_then_read (dev : device) (r : string) (self self1 self2 : mpu6050)
    (xr yr zr : Z) :
  byte_device dev ->
  (set_accel_range dev r self = (Return tt, self1) ->
   comprehension (read_i2c_word dev) [ACCEL_XOUTH; ACCEL_YOUTH; ACCEL_ZOUTH] self1
     = (Return [VInt xr; VInt yr; VInt zr], self2) ->
   exists d,
     ACCEL_SCALE_MAP !! r = Some d /\
     get_accel_data dev self1 =
       (Return (Vector (VFloat (Py.round_int xr / d * GRAVITIY_MS2))
                       (VFloat (Py.round_int yr / d * GRAVITIY_MS2))
                       (VFloat (Py.round_int zr / d * GRAVITIY_MS2))), self2)) /\
  (set_gyro_range dev r self = (Return tt, self1) ->
   comprehension (read_i2c_word dev) [GYRO_XOUTH; GYRO_YOUTH; GYRO_ZOUTH] self1
     = (Return [VInt xr; VInt yr; VInt zr], self2) ->
   exists d,
     GYRO_SCALE_MAP !! r = Some d /\
     get_gyro_data dev self1 =
       (Return (Vector (VFloat (Py.round_int xr / d))
                       (VFloat (Py.round_int yr / d))
                       (VFloat (Py.round_int zr / d))), self2)).
Proof.
  intros Hdev. split; intros Hset Hreads.
  - apply set_accel_range_returns in Hset as (Hr & Hin & _).
    destruct (three_words dev [ACCEL_XOUTH; ACCEL_YOUTH; ACCEL_ZOUTH] self1 Hdev eq_refl)
      as (a & b & c & self' & Hreads1 & Ha & Hb & Hc & Hacc & _).
    rewrite Hreads in Hreads1. simplify_eq.
    destruct (ACCEL_SCALE_MAP_lookup r Hin) as (d & Hd & Hnz & _).
    rewrite Hr in Hacc. exists d. split; [exact Hd|].
    exact (get_accel_data_after_reads dev self1 self' r d _ _ _
             Hreads Hacc Hd Hnz Ha Hb Hc).
  - apply set_gyro_range_returns in Hset as (Hr & Hin & _).
    destruct (three_words dev [GYRO_XOUTH; GYRO_YOUTH; GYRO_ZOUTH] self1 Hdev eq_refl)
      as (a & b & c & self' & Hreads1 & Ha & Hb & Hc & _ & Hgyr).
    rewrite Hreads in Hreads1. simplify_eq.
    destruct (GYRO_SCALE_MAP_lookup r Hin) as (d & Hd & Hnz & _).
    rewrite Hr in Hgyr. exists d. split; [exact Hd|].
    exact (get_gyro_data_after_reads dev self1 self' r d _ _ _
             Hreads Hgyr Hd Hnz Ha Hb Hc).
Qed.

Lemma accel_2048_at_16g :
  (Py.round_int 2048 / 2048.0 * GRAVITIY_MS2)%float = 9.80665%float.
Proof. vm_compute. reflexivity. Qed.

Lemma accel_0_at_16g : (Py.round_int 0 / 2048.0 * GRAVITIY_MS2)%float = 0%float.
Proof. vm_compute. reflexivity. Qed.

(** At '16g' the word 2048 is one gravity. *)
Lemma set_range_then_read_witness :
  let self1 :=
    Mpu6050 0x68 [WriteByte 0x68 0x1C 0x00; WriteByte 0x68 0x1C 0x18]
      (Some "16g") (Some "250deg") in
  set_accel_range (steady (words [(0x3B, 2048)])) "16g" sensor = (Return tt, self1) /\
  fst (get_accel_data (steady (words [(0x3B, 2048)])) self1)
    = Return (Vector (VFloat 9.80665) (VFloat 0) (VFloat 0)).
Proof.
  cbv zeta. split; [reflexivity|].
  destruct (set_range_then_read (steady (words [(0x3B, 2048)])) "16g" sensor
              (Mpu6050 0x68 [WriteByte 0x68 0x1C 0x00; WriteByte 0x68 0x1C 0x18]
                 (Some "16g") (Some "250deg"))
              (Mpu6050 0x68
                 [WriteByte 0x68 0x1C 0x00; WriteByte 0x68 0x1C 0x18;
                  ReadByte 0x68 0x3B; ReadByte 0x68 0x3C; ReadByte 0x68 0x3D;
                  ReadByte 0x68 0x3E; ReadByte 0x68 0x3F; ReadByte 0x68 0x40]
                 (Some "16g") (Some "250deg"))
              2048 0 0 (byte_device_steady _)) as [Hacc _].
  destruct Hacc as (d & Hd & Hget); [reflexivity | reflexivity |].
  rewrite Hget. vm_compute in Hd. injection Hd as <-. cbn [fst].
  by rewrite accel_2048_at_16g, accel_0_at_16g.
Defined.

(** ** Construction, then reading *)

(** On an instance whose [__init__] returned, the accelerations are scaled
    for '4g' ([raw / 8192.0 * 9.80665]) and the angular rates for '500deg'
    ([raw / 65.5]). *)
Theorem init_then_read (dev : device) (a : Z) (self' : mpu6050) (xr yr zr : Z) :
  byte_device dev ->
  fst (init dev a) = Return tt ->
  (comprehension (read_i2c_word dev) [ACCEL_XOUTH; ACCEL_YOUTH; ACCEL_ZOUTH]
     (snd (init dev a)) = (Return [VInt xr; VInt yr; VInt zr], self') ->
   get_accel_data dev (snd (init dev a)) =
     (Return (Vector (VFloat (Py.round_int xr / 8192.0 * 9.80665))
                     (VFloat (Py.round_int yr / 8192.0 * 9.80665))
                     (VFloat (Py.round_int zr / 8192.0 * 9.80665))), self')) /\
  (comprehension (read_i2c_word dev) [GYRO_XOUTH; GYRO_YOUTH; GYRO_ZOUTH]
     (snd (init dev a)) = (Return [VInt xr; VInt yr; VInt zr], self') ->
   get_gyro_data dev (snd (init dev a)) =
     (Return (Vector (VFloat (Py.round_int xr / 65.5))
                     (VFloat (Py.round_int yr / 65.5))
                     (VFloat (Py.round_int zr / 65.5))), self')).
Proof.
  intros Hdev Hinit.
  assert (Hranges : accel_range (snd (init dev a)) = Some "4g" /\
                    gyro_range (snd (init dev a)) = Some "500deg").
  { revert Hinit. rewrite init_unfold. cbv zeta.
    repeat match goal with |- context [if ?c then _ else _] => destruct c end;
      try discriminate 1.
    by intros _. }
  destruct Hranges as [Hacc Hgyr].
  split; intros Hreads.
  - destruct (three_words dev [ACCEL_XOUTH; ACCEL_YOUTH; ACCEL_ZOUTH] (snd (init dev a))
                Hdev eq_refl)
      as (a' & b & c & self1 & Hreads1 & Ha & Hb & Hc & Hacc1 & _).
    rewrite Hreads in Hreads1. simplify_eq.
    rewrite Hacc in Hacc1.
    exact (get_accel_data_after_reads dev _ self1 "4g" 8192.0%float _ _ _
             Hreads Hacc1 eq_refl eq_refl Ha Hb Hc).
  - destruct (three_words dev [GYRO_XOUTH; GYRO_YOUTH; GYRO_ZOUTH] (snd (init dev a))
                Hdev eq_refl)
      as (a' & b & c & self1 & Hreads1 & Ha & Hb & Hc & _ & Hgyr1).
    rewrite Hreads in Hreads1. simplify_eq.
    rewrite Hgyr in Hgyr1.
    exact (get_gyro_data_after_reads dev _ self1 "500deg" 65.5%float _ _ _
             Hreads Hgyr1 eq_refl eq_refl Ha Hb Hc).
Qed.

Lemma accel_8192_at_4g : (Py.round_int 8192 / 8192.0 * 9.80665)%float = 9.80665%float.
Proof. vm_compute. reflexivity. Qed.

Lemma accel_0_at_4g : (Py.round_int 0 / 8192.0 * 9.80665)%float = 0%float.
Proof. vm_compute. reflexivity. Qed.

(** After construction the word 8192 is one gravity. *)
Lemma init_then_read_witness :
  fst (get_accel_data (steady (words [(0x3B, 8192)]))
         (snd (init (steady (words [(0x3B, 8192)])) 0x68)))
    = Return (Vector (VFloat 9.80665) (VFloat 0) (VFloat 0)).
Proof.
  destruct (init_then_read (steady (words [(0x3B, 8192)])) 0x68
              (Mpu6050 0x68
                 (init_writes 0x68 ++
                  [ReadByte 0x68 0x3B; ReadByte 0x68 0x3C; ReadByte 0x68 0x3D;
                   ReadByte 0x68 0x3E; ReadByte 0x68 0x3F; ReadByte 0x68 0x40])
                 (Some "4g") (Some "500deg"))
              8192 0 0 (byte_device_steady _) eq_refl) as [Hacc _].
  rewrite Hacc by reflexivity. cbn [fst].
  by rewrite accel_8192_at_4g, accel_0_at_4g.
Defined.
